(** * swarm_star: the operation dispatcher, the portal cloner, the action
      resolver, the operation records and the sqlite key-value script.

    A shallow embedding of the Python sources.  Python values are a small
    inductive type, exceptions are an error type, and every function that
    touches a collaborator (a handler, the shared metadata store, the
    instance store) passes its state explicitly. *)

From Stdlib Require Import Ascii String ZArith Lia.
From stdpp Require Import gmap strings list.

Open Scope string_scope.
Set Warnings "-register-all".

(** ** Python values, exceptions and outcomes *)

(** The values that travel through [Dict[str, Any]] fields and keyword
    arguments. *)
Inductive pyval : Type :=
  | VNone
  | VBool (b : bool)
  | VInt (z : Z)
  | VStr (s : string)
  | VList (l : list pyval)
  | VDict (d : list (string * pyval)).

Definition pydict : Type := list (string * pyval).

(** The exception classes the sources raise or provoke. *)
Inductive exn : Type :=
  | ValueError (msg : string)
  | KeyError (arg : option string)
  | AttributeError (msg : string)
  | TypeError (msg : string)
  | UnboundLocalError (var : string)
  | OperationalError (msg : string)
  | ImportError (msg : string)
  | IntegrityError (msg : string)
  | ValidationError (model : string) (missing : list string) (invalid : list string)
  | RecursionError.

Inductive outcome (A : Type) : Type :=
  | Return (a : A)
  | Raise (e : exn).
Arguments Return {A} a.
Arguments Raise {A} e.

(** [str(e)] for the exceptions whose text the sources interpolate.
    (The wording for an unbound local is CPython's up to 3.10; later
    versions word it differently and name the variable as well.) *)
Definition exn_str (e : exn) : string :=
  match e with
  | ValueError m | AttributeError m | TypeError m
  | OperationalError m | ImportError m | IntegrityError m => m
  | KeyError (Some m) => "'" +:+ m +:+ "'"
  | KeyError None => ""
  | UnboundLocalError v =>
      "local variable '" +:+ v +:+ "' referenced before assignment"
  | ValidationError model _ _ => "validation error for " +:+ model
  | RecursionError => "maximum recursion depth exceeded"
  end.

(** Computations over a state [W] that may raise. *)
Definition M (W A : Type) : Type := W -> outcome A * W.

Definition ret {W A} (a : A) : M W A := fun w => (Return a, w).
Definition raise {W A} (e : exn) : M W A := fun w => (Raise e, w).
Definition bind {W A B} (m : M W A) (k : A -> M W B) : M W B :=
  fun w => match m w with
           | (Return a, w') => k a w'
           | (Raise e, w') => (Raise e, w')
           end.

Declare Scope py_scope.
Delimit Scope py_scope with py.
Notation "'let*' x := m 'in' k" := (bind m (fun x => k))
  (at level 10, x binder, m at level 200, k at level 200,
   format "'[v' 'let*'  x  :=  m  'in' '/' k ']'") : py_scope.

Definition lift {W A} (o : outcome A) : M W A := fun w => (o, w).

(** [for x in l: body(x)]. *)
Fixpoint for_each {W A} (l : list A) (body : A -> M W unit) : M W unit :=
  match l with
  | [] => ret tt
  | x :: l' => (let* _ := body x in for_each l' body)%py
  end.

(** [try: m  except <classes>: h]. *)
Definition try_except {W A} (m : M W A) (catches : exn -> bool)
    (h : exn -> M W A) : M W A :=
  fun w => match m w with
           | (Raise e, w') => if catches e then h e w' else (Raise e, w')
           | r => r
           end.

Definition is_KeyError (e : exn) : bool :=
  match e with KeyError _ => true | _ => false end.

(** [s in t] on strings: [t] has [s] as a contiguous substring. *)
Fixpoint is_prefix (s t : string) : bool :=
  match s, t with
  | EmptyString, _ => true
  | String a s', String b t' => if Ascii.eqb a b then is_prefix s' t' else false
  | String _ _, EmptyString => false
  end.

Fixpoint contains (s t : string) : bool :=
  is_prefix s t ||
  match t with
  | EmptyString => false
  | String _ t' => contains s t'
  end.

(** ** swarmstar/types/swarm_operations.py *)

Module SwarmOperations.

Record NodeEmbryo : Type := {
  action_id : string;
  message : string
}.

(** The fields each subclass adds to [SwarmOperation]. *)
Inductive OperationFields : Type :=
  | BaseFields
  | BlockingFields (node_id blocking_type : string) (args context : pydict)
      (next_function_to_call : string)
  | SpawnFields (node_embryo : NodeEmbryo) (node_id child_node_id : option string)
      (context : option pydict)
  | ActionFields (function_to_call node_id : string) (args : pydict)
  | TerminationFields (terminator_node_id target_node_id : string)
      (context : option pydict)
  | FailureFields (node_id : option string)
  | UserCommunicationFields (node_id message : string) (context : pydict)
      (next_function_to_call : string).

Record SwarmOperation : Type := {
  id : option string;
  operation_type : string;
  fields : OperationFields
}.

(** The [Literal] of [SwarmOperation.operation_type]. *)
Definition operation_type_literal : list string :=
  ["spawn"; "terminate"; "node_failure"; "blocking"; "user_communication"; "action"].

(** The [Literal] each subclass narrows [operation_type] to. *)
Definition subclass_literal (f : OperationFields) : list string :=
  match f with
  | BaseFields => operation_type_literal
  | BlockingFields _ _ _ _ _ => ["blocking"]
  | SpawnFields _ _ _ _ => ["spawn"]
  | ActionFields _ _ _ => ["action"]
  | TerminationFields _ _ _ => ["terminate"]
  | FailureFields _ => ["node_failure"]
  | UserCommunicationFields _ _ _ _ => ["user_communication"]
  end.

(** An operation that passed pydantic's validation. *)
Definition well_formed (op : SwarmOperation) : Prop :=
  operation_type op ∈ subclass_literal (fields op).

(** *** Constructing a [TerminationOperation] from keyword arguments *)

(** What pydantic makes of one declared field. *)
Inductive field_result (A : Type) : Type :=
  | Valid (a : A)
  | Missing
  | Invalid.
Arguments Valid {A} a.
Arguments Missing {A}.
Arguments Invalid {A}.

Definition is_missing {A} (r : field_result A) : bool :=
  match r with Missing => true | _ => false end.
Definition is_invalid {A} (r : field_result A) : bool :=
  match r with Invalid => true | _ => false end.

Section Validation.

(** [swarmstar.utils.misc.generate_uuid], not part of these sources. *)
Variable generate_uuid : string -> string.

(** A field annotated [str] with no default. *)
Definition required_str (kwargs : gmap string pyval) (name : string)
  : field_result string :=
  match kwargs !! name with
  | None => Missing
  | Some (VStr s) => Valid s
  | Some _ => Invalid
  end.

(** [Optional[str]] with a [default_factory]. *)
Definition optional_str_or (kwargs : gmap string pyval) (name : string)
    (default : string) : field_result (option string) :=
  match kwargs !! name with
  | None => Valid (Some default)
  | Some VNone => Valid None
  | Some (VStr s) => Valid (Some s)
  | Some _ => Invalid
  end.

(** [Literal[lit]] with default [lit]. *)
Definition literal_or_default (kwargs : gmap string pyval) (name lit : string)
  : field_result string :=
  match kwargs !! name with
  | None => Valid lit
  | Some (VStr s) => if String.eqb s lit then Valid s else Invalid
  | Some _ => Invalid
  end.

(** [Dict[str, Any] = None]. *)
Definition dict_or_None (kwargs : gmap string pyval) (name : string)
  : field_result (option pydict) :=
  match kwargs !! name with
  | None | Some VNone => Valid None
  | Some (VDict d) => Valid (Some d)
  | Some _ => Invalid
  end.

Definition names_where (l : list (string * bool)) : list string :=
  map fst (List.filter snd l).

(** Keyword arguments that name no declared field ([node_id] at both
    call sites) are ignored, as pydantic does by default. *)
Definition TerminationOperation_init (kwargs : gmap string pyval)
  : outcome SwarmOperation :=
  let f_id := optional_str_or kwargs "id" (generate_uuid "termination_op") in
  let f_type := literal_or_default kwargs "operation_type" "terminate" in
  let f_terminator := required_str kwargs "terminator_node_id" in
  let f_target := required_str kwargs "target_node_id" in
  let f_context := dict_or_None kwargs "context" in
  match f_id, f_type, f_terminator, f_target, f_context with
  | Valid i, Valid t, Valid terminator, Valid target, Valid c =>
      Return {| id := i; operation_type := t;
                fields := TerminationFields terminator target c |}
  | _, _, _, _, _ =>
      Raise (ValidationError "TerminationOperation"
               (names_where
                  [("id", is_missing f_id);
                   ("operation_type", is_missing f_type);
                   ("terminator_node_id", is_missing f_terminator);
                   ("target_node_id", is_missing f_target);
                   ("context", is_missing f_context)])
               (names_where
                  [("id", is_invalid f_id);
                   ("operation_type", is_invalid f_type);
                   ("terminator_node_id", is_invalid f_terminator);
                   ("target_node_id", is_invalid f_target);
                   ("context", is_invalid f_context)]))
  end.

End Validation.

End SwarmOperations.

(** ** swarmstar/core.py *)

Module Core.
Import SwarmOperations.

(** What a handler may hand back: [None], one operation, a tuple, a
    list, or some other value. *)
Inductive pyobj : Type :=
  | PyNone
  | PyOp (op : SwarmOperation)
  | PyTuple (items : list pyobj)
  | PyList (items : list pyobj)
  | PyOther (v : pyval).

Section Dispatcher.

(** The handlers are imported from [swarmstar.utils.swarm_operations];
    they act on the swarm's stores, an arbitrary state [World]. *)
Context {SwarmConfig World : Type}.

Definition handler : Type :=
  SwarmConfig -> SwarmOperation -> M World pyobj.

Variables spawn blocking terminate failure : handler.

(** The dispatcher's state: the world the handlers act on, and the
    handler invocations made so far, oldest first. *)
Record DispatchState : Type := {
  world : World;
  invoked : list (string * SwarmOperation)
}.

Definition operation_mapping : gmap string handler :=
  <["spawn" := spawn]> (<["blocking" := blocking]>
    (<["terminate" := terminate]> (<["node_failure" := failure]> ∅))).

(** [operation_mapping[key](swarm_config, swarm_operation)]: the call is
    recorded, then the handler runs on the world. *)
Definition call_handler (key : string) (h : handler)
    (swarm_config : SwarmConfig) (swarm_operation : SwarmOperation)
  : M DispatchState pyobj :=
  fun st =>
    let (r, w') := h swarm_config swarm_operation (world st) in
    (r, {| world := w';
           invoked := invoked st ++ [(key, swarm_operation)] |}).

(** Lines 47-50: a tuple becomes a list; anything that is neither a list
    nor [None] is wrapped in a list. *)
Definition normalize (output : pyobj) : pyobj :=
  let output :=
    match output with
    | PyTuple items => PyList items
    | _ => output
    end in
  match output with
  | PyList _ | PyNone => output
  | _ => PyList [output]
  end.

Definition execute_swarmstar_operation
    (swarm_config : SwarmConfig) (swarm_operation : SwarmOperation)
  : M DispatchState pyobj :=
  (let* output :=
     match operation_mapping !! operation_type swarm_operation with
     | Some h =>
         call_handler (operation_type swarm_operation) h
           swarm_config swarm_operation
     | None =>
         raise (ValueError ("Unknown swarm operation type: "
                              +:+ operation_type swarm_operation))
     end in
   ret (normalize output))%py.

End Dispatcher.
End Core.

(** ** swarmstar/abstract/metadata_tree.py *)

Module MetadataTree.

(** A metadata-tree node as the stores hold it: [{id, type,
    children_ids, ...}].  [children_ids] is read with [node.get], so the
    key may be absent. *)
Record Node : Type := {
  id : string;
  type : string;
  children_ids : option (list string);
  rest : pydict
}.

(** The calls [portal_clone] makes on its two collaborators. *)
Inductive Call : Type :=
  | Get (collection node_id : string)
  | Insert (collection key : string) (record : Node).

Section PortalClone.

(** [db = MongoDBWrapper()] is the instance-local store and
    [get_internal_sqlite] reads the shared store; neither is defined in
    these sources.  The shared store is read-only; an insert acts on the
    state [DB] of the instance store and may raise. *)
Context {DB : Type}.
Variable get_internal_sqlite : string -> string -> outcome Node.
Variable db_insert : string -> string -> Node -> M DB unit.

(** [cls.collection]. *)
Variable collection : string.

Record CloneState : Type := {
  instance_store : DB;
  calls : list Call
}.

Definition fetch (coll node_id : string) : M CloneState Node :=
  fun st =>
    (get_internal_sqlite coll node_id,
     {| instance_store := instance_store st;
        calls := calls st ++ [Get coll node_id] |}).

Definition insert_record (coll key : string) (record : Node)
  : M CloneState unit :=
  fun st =>
    let (r, db') := db_insert coll key record (instance_store st) in
    (r, {| instance_store := db';
           calls := calls st ++ [Insert coll key record] |}).

(** Truth value of [node.get("children_ids", None)]. *)
Definition truthy (ids : option (list string)) : bool :=
  match ids with
  | Some (_ :: _) => true
  | _ => false
  end.

(** [node["children_ids"]], evaluated only under [truthy]. *)
Definition children (node : Node) : list string :=
  default [] (children_ids node).

(** The nested [recursive_helper].  [fuel] is the depth of Python frames
    still available; running out of it is Python's [RecursionError]. *)
Fixpoint recursive_helper (fuel : nat) (swarm_id : string) (node : Node)
  : M CloneState unit :=
  match fuel with
  | O => raise RecursionError
  | S fuel' =>
      (let* _ :=
         if String.eqb (type node) "portal" then
           let node_id := swarm_id +:+ "_" +:+ id node in
           insert_record collection node_id node
         else ret tt in
       if truthy (children_ids node) then
         for_each (children node) (fun child_id =>
           let* child_node := fetch collection child_id in
           recursive_helper fuel' swarm_id child_node)
       else ret tt)%py
  end.

Definition internal_root_node_id : string := "root".

Definition portal_clone (fuel : nat) (swarm_id : string) : M CloneState unit :=
  (let* node := fetch collection internal_root_node_id in
   recursive_helper fuel swarm_id node)%py.

(** *** The traversal, as the specification describes it *)

(** The part of the shared store reachable from an id: the id the node
    was fetched under, the record, and the subtrees of its children. *)
Inductive Tree : Type :=
  | Visit (fetched_id : string) (node : Node) (subtrees : list Tree).

Definition fetched_id (t : Tree) : string :=
  match t with Visit i _ _ => i end.
Definition node_of (t : Tree) : Node :=
  match t with Visit _ n _ => n end.

(** [stored_tree t]: every node of [t] is what the shared store holds
    under the id it was fetched by, and its subtrees are those of the ids
    in its [children_ids], one per id, in order. *)
Fixpoint stored_tree (t : Tree) : Prop :=
  match t with
  | Visit i n ts =>
      get_internal_sqlite collection i = Return n /\
      map fetched_id ts = children n /\
      (fix all (l : list Tree) : Prop :=
         match l with
         | [] => True
         | t' :: l' => stored_tree t' /\ all l'
         end) ts
  end.

Fixpoint depth (t : Tree) : nat :=
  match t with
  | Visit _ _ ts => S (foldr (fun t' d => Nat.max (depth t') d) 0 ts)
  end.

(** The visited nodes, parents before children, siblings in list
    order. *)
Fixpoint visited (t : Tree) : list (string * Node) :=
  match t with
  | Visit i n ts => (i, n) :: flat_map visited ts
  end.

Definition is_portal (n : Node) : bool := String.eqb (type n) "portal".

(** The shadow copy of a portal node for an instance: the insert of the
    record under ["{swarm_id}_{node_id}"]. *)
Definition shadow (swarm_id : string) (n : Node) : Call :=
  Insert collection (swarm_id +:+ "_" +:+ id n) n.

(** The calls of the depth-first walk: fetch the node, copy it if it is a
    portal, then walk every child. *)
Fixpoint walk (swarm_id : string) (t : Tree) : list Call :=
  match t with
  | Visit i n ts =>
      Get collection i ::
      (if is_portal n then [shadow swarm_id n] else []) ++
      flat_map (walk swarm_id) ts
  end.

(** Issue a sequence of calls; the first insert that raises ends it. *)
Fixpoint replay (cs : list Call) : M CloneState unit :=
  match cs with
  | [] => ret tt
  | Get coll i :: cs' =>
      fun st => replay cs' {| instance_store := instance_store st;
                              calls := calls st ++ [Get coll i] |}
  | Insert coll k r :: cs' =>
      (let* _ := insert_record coll k r in replay cs')%py
  end.

(** The instance store after a sequence of inserts, whatever each
    returned. *)
Definition run_inserts (cs : list Call) (db : DB) : DB :=
  foldl (fun db c =>
           match c with
           | Insert coll k r => snd (db_insert coll k r db)
           | Get _ _ => db
           end) db cs.

(** The shadow copies of a visited tree, in visiting order. *)
Definition shadows (swarm_id : string) (t : Tree) : list Call :=
  map (shadow swarm_id) (List.filter is_portal (map snd (visited t))).

Definition is_insert (c : Call) : bool :=
  match c with Insert _ _ _ => true | Get _ _ => false end.

Definition inserts (cs : list Call) : list Call := List.filter is_insert cs.

Definition gets (cs : list Call) : list Call :=
  List.filter (fun c => negb (is_insert c)) cs.

End PortalClone.
End MetadataTree.

(** ** aga_swarm/actions/swarm/action_types/action.py *)

Module Action.

(** [s.replace(a, b)] for one-character [a] and [b]. *)
Fixpoint replace_char (a b : Ascii.ascii) (s : string) : string :=
  match s with
  | EmptyString => EmptyString
  | String c s' =>
      String (if Ascii.eqb c a then b else c) (replace_char a b s')
  end.

Definition endswith (s suffix : string) : bool :=
  (String.length suffix <=? String.length s)%nat &&
  String.eqb
    (substring (String.length s - String.length suffix)
       (String.length suffix) s)
    suffix.

(** [s[:-n]]. *)
Definition drop_last (n : nat) (s : string) : string :=
  substring 0 (String.length s - n) s.

(** An object read with [getattr]: its class name and its attributes. *)
Record PyObject : Type := {
  class_name : string;
  attributes : gmap string pyval
}.

Definition getattr (o : PyObject) (name : string) : outcome pyval :=
  match attributes o !! name with
  | Some v => Return v
  | None =>
      Raise (AttributeError ("'" +:+ class_name o
                               +:+ "' object has no attribute '"
                               +:+ name +:+ "'"))
  end.

Record SwarmID : Type := {
  configs : PyObject
}.

(** One entry of the action space metadata. *)
Record ActionMetadata : Type := {
  required_configs : list string
}.

(** An action's [main], called with keyword arguments. *)
Definition entry_point : Type := gmap string pyval -> outcome pyval.

(** An imported module: its [main] attribute, if it has one. *)
Record PyModule : Type := {
  main : option entry_point
}.

(** The caller's [params] dictionary, which [action] updates in place,
    and the entry points invoked so far with their keyword arguments. *)
Record ActionState : Type := {
  params : gmap string pyval;
  entered : list (gmap string pyval)
}.

Section Resolver.

(** [get_action_space_metadata] and the modules [__import__] finds are
    not part of these sources. *)
Variable get_action_space_metadata :
  SwarmID -> outcome (gmap string ActionMetadata).
Variable import_module : string -> outcome PyModule.

Definition set_param (key : string) (v : pyval) : M ActionState unit :=
  fun st => (Return tt, {| params := <[key := v]> (params st);
                           entered := entered st |}).

Definition pop_param (key : string) : M ActionState unit :=
  fun st => (Return tt, {| params := delete key (params st);
                           entered := entered st |}).

Definition call_main (main_function : entry_point) : M ActionState pyval :=
  fun st => (main_function (params st),
             {| params := params st;
                entered := entered st ++ [params st] |}).

Definition is_None (v : pyval) : bool :=
  match v with VNone => true | _ => false end.

(** Lines 19-25: the loop over [required_configs]. *)
Definition inject_required_configs (required : list string)
    (swarm_id : SwarmID) : M ActionState unit :=
  for_each required (fun config =>
    try_except
      (let* v := lift (getattr (configs swarm_id) config) in
       let* _ := if is_None v then raise (KeyError None) else ret tt in
       let* v' := lift (getattr (configs swarm_id) config) in
       set_param config v')%py
      is_KeyError
      (fun _ =>
         raise (KeyError (Some ("Config " +:+ config
                  +:+ " not found in swarm configs or value is None"))))).

(** Lines 28-30: the dotted module path of an action script. *)
Definition module_path (action_type : string) : string :=
  let action_type := replace_char "/"%char "."%char action_type in
  if endswith action_type ".py" then drop_last 3 action_type
  else action_type.

(** Lines 28-35.  [action_type] is the binding of the local variable of
    that name when line 28 is reached: [None] when it is unbound. *)
Definition import_main (action_type : option string)
  : M ActionState entry_point :=
  (let* action_type :=
     match action_type with
     | Some v => ret (module_path v)
     | None => raise (UnboundLocalError "action_type")
     end in
   let* action := lift (import_module action_type) in
   match main action with
   | Some main_function => ret main_function
   | None => raise (AttributeError "No main function found in the script")
   end)%py.

(** [action(action_id, params, swarm_id)].  [action_type] is assigned in
    the body, so it is a local variable; no parameter and no earlier
    statement binds it, hence it is unbound at line 28. *)
Definition action (action_id : string) (swarm_id : SwarmID)
  : M ActionState pyval :=
  (let* action_space_metadata := lift (get_action_space_metadata swarm_id) in
   let* entry :=
     match action_space_metadata !! action_id with
     | Some entry => ret entry
     | None => raise (KeyError (Some action_id))
     end in
   let* _ := inject_required_configs (required_configs entry) swarm_id in
   let* main_function := import_main None in
   let* _ := pop_param "action_type" in
   call_main main_function)%py.

(** A required key that is missing from the configuration, or has no
    value in it. *)
Definition config_missing (swarm_id : SwarmID) (config : string) : bool :=
  match attributes (configs swarm_id) !! config with
  | None | Some VNone => true
  | Some _ => false
  end.

End Resolver.
End Action.

(** ** swarmstar/actions/communication/ask_user_questions.py *)

Module AskUserQuestions.
Import SwarmOperations.

Definition nl : string := String (Ascii.ascii_of_nat 10) EmptyString.

(** [self.node]: the fields the action reads. *)
Record SwarmNode : Type := {
  id : string;
  message : string
}.

Section Action.

(** [self.log] and [self.report] come from [BaseAction], which is not
    part of these sources; they act on some state [World]. *)
Context {World : Type}.
Variable generate_uuid : string -> string.
Variable log : pydict -> M World unit.
Variable report : string -> M World unit.


End Action.
End AskUserQuestions.

(** ** tests/unit_tests/test_swarm_operations/test_simple_termination.py *)

Module TestSimpleTermination.
Import SwarmOperations.


End TestSimpleTermination.

(** ** scripts/create_sqlite3_db.py *)

Module CreateSqlite3Db.

(** A database file: the table [kv_store (key TEXT PRIMARY KEY, value
    TEXT)] if it was created, as a map from key to value; a value may be
    NULL. *)
Record Database : Type := {
  kv_store : option (gmap string (option string))
}.

(** [sqlite3.connect(path)]: the connection addresses the file, which is
    created empty when absent. *)
Definition connect (path : string) : M (gmap string Database) string :=
  fun fs =>
    (Return path,
     match fs !! path with
     | Some _ => fs
     | None => <[path := {| kv_store := None |}]> fs
     end).

Definition no_such_table : exn := OperationalError "no such table: kv_store".

(** [CREATE TABLE IF NOT EXISTS kv_store (...)], committed. *)
Definition execute_create (conn : string) : M (gmap string Database) unit :=
  fun fs =>
    match fs !! conn with
    | Some db =>
        (Return tt,
         match kv_store db with
         | Some _ => fs
         | None => <[conn := {| kv_store := Some ∅ |}]> fs
         end)
    | None => (Raise (OperationalError "unable to open database file"), fs)
    end.

(** [SELECT value FROM kv_store WHERE key = ?]: the rows found. *)
Definition execute_select (conn key : string)
  : M (gmap string Database) (list (option string)) :=
  fun fs =>
    match fs !! conn with
    | Some db =>
        match kv_store db with
        | Some table =>
            (Return match table !! key with
                    | Some value => [value]
                    | None => []
                    end, fs)
        | None => (Raise no_such_table, fs)
        end
    | None => (Raise (OperationalError "unable to open database file"), fs)
    end.

(** [cursor.fetchone()]: the first row, or [None]. *)
Definition fetchone (rows : list (option string)) : option (option string) :=
  head rows.

(** [row[0]] on what [fetchone] returned. *)
Definition subscript_0 (row : option (option string)) : outcome pyval :=
  match row with
  | Some (Some value) => Return (VStr value)
  | Some None => Return VNone
  | None => Raise (TypeError "'NoneType' object is not subscriptable")
  end.

Definition any_exception (e : exn) : bool := true.

Definition create_or_open_kv_db (sqlite3_db_path : string)
  : M (gmap string Database) unit :=
  try_except
    (let* conn := connect sqlite3_db_path in
     execute_create conn)%py
    any_exception
    (fun e => raise (ValueError ("Failed to create or open kv store db: "
                                   +:+ exn_str e))).

Definition retrieve_value_from_sqlite3 (sqlite3_db_path key : string)
  : M (gmap string Database) pyval :=
  try_except
    (let* conn := connect sqlite3_db_path in
     let* rows := execute_select conn key in
     let* value := lift (subscript_0 (fetchone rows)) in
     ret value)%py
    any_exception
    (fun e => raise (ValueError ("Failed to retrieve value from SQLite3: "
                                   +:+ exn_str e))).

(** [INSERT INTO kv_store (key, value) VALUES (?, ?)]. *)
Definition execute_insert (conn key value : string)
  : M (gmap string Database) unit :=
  fun fs =>
    match fs !! conn with
    | Some db =>
        match kv_store db with
        | Some table =>
            match table !! key with
            | Some _ =>
                (Raise (IntegrityError "UNIQUE constraint failed: kv_store.key"),
                 fs)
            | None =>
                (Return tt,
                 <[conn := {| kv_store := Some (<[key := Some value]> table) |}]> fs)
            end
        | None => (Raise no_such_table, fs)
        end
    | None => (Raise (OperationalError "unable to open database file"), fs)
    end.

(** Lines 15-26.  [data] is the JSON object already loaded, each value
    already passed through [json.dumps].  The inserts are committed
    together at the end; when one raises, the exception is raised again
    and nothing was committed. *)
Definition move_json_to_sqlite3 (data : list (string * string))
    (sqlite3_db_path : string) : M (gmap string Database) unit :=
  fun fs =>
    match connect sqlite3_db_path fs with
    | (Return conn, fs1) =>
        match for_each data
                (fun kv => execute_insert conn (fst kv) (snd kv)) fs1 with
        | (Return _, fs2) => (Return tt, fs2)
        | (Raise e, _) => (Raise e, fs1)
        end
    | (Raise e, fs1) => (Raise e, fs1)
    end.

(** What the store at [path] holds under [key], if the file and its
    table exist and the key is present. *)
Definition stored (fs : gmap string Database) (path key : string)
  : option (option string) :=
  match fs !! path with
  | Some db =>
      match kv_store db with
      | Some table => table !! key
      | None => None
      end
  | None => None
  end.

End CreateSqlite3Db.

(** * Concrete instances *)

Module DispatchExamples.
Import SwarmOperations.

(** A handler over a call counter: it counts its call and hands back
    [out]. *)
Definition counting (out : Core.pyobj) : @Core.handler unit nat :=
  fun _ _ w => (Return out, S w).

Definition spawn_op : SwarmOperation :=
  {| id := Some "spawn_op_1";
     operation_type := "spawn";
     fields := SpawnFields
       {| action_id := "swarmstar/actions/reasoning/decompose_directive";
          message := "go" |} None None None |}.

Definition terminate_op : SwarmOperation :=
  {| id := Some "termination_op_1";
     operation_type := "terminate";
     fields := TerminationFields "node_1" "node_2" None |}.

Definition user_communication_op : SwarmOperation :=
  {| id := Some "user_comms_op_1";
     operation_type := "user_communication";
     fields := UserCommunicationFields "node_1" "Which file?" []
                 "handle_user_response" |}.

Definition st0 : @Core.DispatchState nat :=
  {| Core.world := 0; Core.invoked := [] |}.

End DispatchExamples.

Module CloneExamples.
Import MetadataTree.

Definition root_node : Node :=
  {| id := "root"; type := "folder";
     children_ids := Some ["actions"; "memory"]; rest := [] |}.
Definition actions_node : Node :=
  {| id := "actions"; type := "portal";
     children_ids := Some ["decompose_directive"]; rest := [] |}.
Definition decompose_node : Node :=
  {| id := "decompose_directive"; type := "action";
     children_ids := None; rest := [("name", VStr "Decompose directive")] |}.
Definition memory_node : Node :=
  {| id := "memory"; type := "portal"; children_ids := Some []; rest := [] |}.

Definition shared_store : gmap string Node :=
  <["root" := root_node]> (<["actions" := actions_node]>
    (<["decompose_directive" := decompose_node]>
       (<["memory" := memory_node]> ∅))).

(** A shared store that raises for an id it does not hold. *)
Definition get_shared (coll node_id : string) : outcome Node :=
  match shared_store !! node_id with
  | Some n => Return n
  | None => Raise (ValueError ("No value for key " +:+ node_id))
  end.

(** An instance store that keeps every record it is given, in order. *)
Definition append_insert (coll key : string) (record : Node)
  : M (list (string * Node)) unit :=
  fun db => (Return tt, (db ++ [(key, record)])%list).

(** An instance store that refuses a key it already holds. *)
Definition unique_insert (coll key : string) (record : Node)
  : M (gmap string Node) unit :=
  fun db =>
    match db !! key with
    | Some _ => (Raise (ValueError ("Duplicate key " +:+ key)), db)
    | None => (Return tt, <[key := record]> db)
    end.

Definition shared_tree : Tree :=
  Visit "root" root_node
    [Visit "actions" actions_node
       [Visit "decompose_directive" decompose_node []];
     Visit "memory" memory_node []].

Definition empty_instance : @CloneState (list (string * Node)) :=
  {| instance_store := []; calls := [] |}.

End CloneExamples.

Module ActionExamples.
Import Action.

Definition rename_file_id : string :=
  "aga_swarm/actions/data/file_operations/rename_file/mac_rename_file.py".

(** One action, which requires two configuration keys. *)
Definition metadata : gmap string ActionMetadata :=
  <[rename_file_id := {| required_configs := ["openai_key"; "azure_key"] |}]> ∅.

Definition get_metadata (swarm_id : SwarmID)
  : outcome (gmap string ActionMetadata) := Return metadata.

(** Both keys are attributes of the configuration and both are [None]. *)
Definition swarm_unconfigured : SwarmID :=
  {| configs :=
       {| class_name := "Configs";
          attributes := <["openai_key" := VNone]> (<["azure_key" := VNone]> ∅) |} |}.

(** [azure_key] is not an attribute at all. *)
Definition swarm_half_configured : SwarmID :=
  {| configs :=
       {| class_name := "Configs";
          attributes := <["openai_key" := VStr "sk-1"]> ∅ |} |}.

Definition swarm_configured : SwarmID :=
  {| configs :=
       {| class_name := "Configs";
          attributes :=
            <["openai_key" := VStr "sk-1"]> (<["azure_key" := VStr "az-1"]> ∅) |} |}.

(** Every module imports, and none has a [main]. *)
Definition import_without_main (name : string) : outcome PyModule :=
  Return {| main := None |}.

(** Every module imports, and its [main] returns its keyword arguments'
    [file_path]. *)
Definition import_with_main (name : string) : outcome PyModule :=
  Return {| main := Some (fun kwargs => Return (default VNone (kwargs !! "file_path"))) |}.

Definition st0 : ActionState :=
  {| params := <["file_path" := VStr "notes.txt"]> ∅; entered := [] |}.

End ActionExamples.

Module SqliteExamples.
Import CreateSqlite3Db.

Definition db_path : string := "swarm_star/actions/action_space_metadata.sqlite3".

(** The file system after the script ran on a JSON object with one key. *)
Definition fs1 : gmap string Database :=
  snd (move_json_to_sqlite3
         [("action_space_swarm_star/actions/reasoning", "{}")] db_path
         (snd (create_or_open_kv_db db_path ∅))).

End SqliteExamples.

(** ** scripts/create_sqlite3_db.py, the statements run on import *)

Module Sqlite3Script.
Import CreateSqlite3Db.

Definition sqlite3_db_path : string :=
  "swarm_star/actions/action_space_metadata.sqlite3".

(** Lines 39-42.  [data] is what [json.load] reads from [json_path]. *)
Definition run_script (data : list (string * string))
  : M (gmap string Database) unit :=
  (let* _ := create_or_open_kv_db sqlite3_db_path in
   move_json_to_sqlite3 data sqlite3_db_path)%py.

(** What [retrieve_value_from_sqlite3] hands back for a stored value. *)
Definition as_python (value : option string) : pyval :=
  match value with
  | Some text => VStr text
  | None => VNone
  end.

End Sqlite3Script.

(** ** The shape of the shared store, as [portal_clone] meets it *)

Module SharedStore.
Import MetadataTree.

Section Shape.
Variable get_internal_sqlite : string -> string -> outcome Node.
Variable collection : string.

(** [child_id] is listed in the [children_ids] of the node held under
    [node_id]. *)
Definition child_of (node_id child_id : string) : Prop :=
  exists n,
    get_internal_sqlite collection node_id = Return n /\
    child_id ∈ children n.

(** What [portal_clone] may issue for instance [swarm_id]: a read of the
    shared collection, or the insert of a portal record the shared store
    holds, under the instance's key for it. *)
Definition clone_call (swarm_id : string) (c : Call) : Prop :=
  match c with
  | Get coll _ => coll = collection
  | Insert coll key record =>
      coll = collection /\
      type record = "portal" /\
      key = swarm_id +:+ "_" +:+ id record /\
      exists node_id, get_internal_sqlite collection node_id = Return record
  end.

End Shape.
End SharedStore.

(** ** swarmstar/types/swarm_operations.py, the other constructors *)

Module Constructors.
Import SwarmOperations.

Section Init.
Variable generate_uuid : string -> string.

(** [Optional[str] = None]. *)
Definition optional_str (kwargs : gmap string pyval) (name : string)
  : field_result (option string) :=
  match kwargs !! name with
  | None | Some VNone => Valid None
  | Some (VStr s) => Valid (Some s)
  | Some _ => Invalid
  end.

(** [Dict[str, Any] = {}]. *)
Definition dict_or_empty (kwargs : gmap string pyval) (name : string)
  : field_result pydict :=
  match kwargs !! name with
  | None => Valid []
  | Some (VDict d) => Valid d
  | Some _ => Invalid
  end.

(** A [Literal[...]] with no default. *)
Definition required_literal (kwargs : gmap string pyval) (name : string)
    (allowed : list string) : field_result string :=
  match kwargs !! name with
  | None => Missing
  | Some (VStr s) =>
      if bool_decide (s ∈ allowed) then Valid s else Invalid
  | Some _ => Invalid
  end.

(** A field annotated with a model class and given as an instance of
    it, which is how every call site passes [node_embryo]. *)
Definition required_instance {A} (arg : option A) : field_result A :=
  match arg with
  | Some a => Valid a
  | None => Missing
  end.

Definition NodeEmbryo_init (kwargs : gmap string pyval) : outcome NodeEmbryo :=
  let f_action_id := required_str kwargs "action_id" in
  let f_message := required_str kwargs "message" in
  match f_action_id, f_message with
  | Valid a, Valid m => Return {| action_id := a; message := m |}
  | _, _ =>
      Raise (ValidationError "NodeEmbryo"
               (names_where
                  [("action_id", is_missing f_action_id);
                   ("message", is_missing f_message)])
               (names_where
                  [("action_id", is_invalid f_action_id);
                   ("message", is_invalid f_message)]))
  end.

(** The base class: [id] and [operation_type] have no default. *)
Definition SwarmOperation_init (kwargs : gmap string pyval)
  : outcome SwarmOperation :=
  let f_id := required_str kwargs "id" in
  let f_type := required_literal kwargs "operation_type" operation_type_literal in
  match f_id, f_type with
  | Valid i, Valid t =>
      Return {| id := Some i; operation_type := t; fields := BaseFields |}
  | _, _ =>
      Raise (ValidationError "SwarmOperation"
               (names_where
                  [("id", is_missing f_id);
                   ("operation_type", is_missing f_type)])
               (names_where
                  [("id", is_invalid f_id);
                   ("operation_type", is_invalid f_type)]))
  end.

Definition BlockingOperation_init (kwargs : gmap string pyval)
  : outcome SwarmOperation :=
  let f_id := optional_str_or kwargs "id" (generate_uuid "blocking_op") in
  let f_type := literal_or_default kwargs "operation_type" "blocking" in
  let f_node_id := required_str kwargs "node_id" in
  let f_blocking_type := required_str kwargs "blocking_type" in
  let f_args := dict_or_empty kwargs "args" in
  let f_context := dict_or_empty kwargs "context" in
  let f_next := required_str kwargs "next_function_to_call" in
  match f_id, f_type, f_node_id, f_blocking_type, f_args, f_context, f_next with
  | Valid i, Valid t, Valid n, Valid b, Valid a, Valid c, Valid f =>
      Return {| id := i; operation_type := t;
                fields := BlockingFields n b a c f |}
  | _, _, _, _, _, _, _ =>
      Raise (ValidationError "BlockingOperation"
               (names_where
                  [("id", is_missing f_id);
                   ("operation_type", is_missing f_type);
                   ("node_id", is_missing f_node_id);
                   ("blocking_type", is_missing f_blocking_type);
                   ("args", is_missing f_args);
                   ("context", is_missing f_context);
                   ("next_function_to_call", is_missing f_next)])
               (names_where
                  [("id", is_invalid f_id);
                   ("operation_type", is_invalid f_type);
                   ("node_id", is_invalid f_node_id);
                   ("blocking_type", is_invalid f_blocking_type);
                   ("args", is_invalid f_args);
                   ("context", is_invalid f_context);
                   ("next_function_to_call", is_invalid f_next)]))
  end.

Definition SpawnOperation_init (node_embryo : option NodeEmbryo)
    (kwargs : gmap string pyval) : outcome SwarmOperation :=
  let f_id := optional_str_or kwargs "id" (generate_uuid "spawn_op") in
  let f_type := literal_or_default kwargs "operation_type" "spawn" in
  let f_embryo := required_instance node_embryo in
  let f_node_id := optional_str kwargs "node_id" in
  let f_child := optional_str kwargs "child_node_id" in
  let f_context := dict_or_None kwargs "context" in
  match f_id, f_type, f_embryo, f_node_id, f_child, f_context with
  | Valid i, Valid t, Valid e, Valid n, Valid ch, Valid c =>
      Return {| id := i; operation_type := t;
                fields := SpawnFields e n ch c |}
  | _, _, _, _, _, _ =>
      Raise (ValidationError "SpawnOperation"
               (names_where
                  [("id", is_missing f_id);
                   ("operation_type", is_missing f_type);
                   ("node_embryo", is_missing f_embryo);
                   ("node_id", is_missing f_node_id);
                   ("child_node_id", is_missing f_child);
                   ("context", is_missing f_context)])
               (names_where
                  [("id", is_invalid f_id);
                   ("operation_type", is_invalid f_type);
                   ("node_embryo", is_invalid f_embryo);
                   ("node_id", is_invalid f_node_id);
                   ("child_node_id", is_invalid f_child);
                   ("context", is_invalid f_context)]))
  end.

Definition ActionOperation_init (kwargs : gmap string pyval)
  : outcome SwarmOperation :=
  let f_id := optional_str_or kwargs "id" (generate_uuid "action_op") in
  let f_type := literal_or_default kwargs "operation_type" "action" in
  let f_function := required_str kwargs "function_to_call" in
  let f_node_id := required_str kwargs "node_id" in
  let f_args := dict_or_empty kwargs "args" in
  match f_id, f_type, f_function, f_node_id, f_args with
  | Valid i, Valid t, Valid f, Valid n, Valid a =>
      Return {| id := i; operation_type := t; fields := ActionFields f n a |}
  | _, _, _, _, _ =>
      Raise (ValidationError "ActionOperation"
               (names_where
                  [("id", is_missing f_id);
                   ("operation_type", is_missing f_type);
                   ("function_to_call", is_missing f_function);
                   ("node_id", is_missing f_node_id);
                   ("args", is_missing f_args)])
               (names_where
                  [("id", is_invalid f_id);
                   ("operation_type", is_invalid f_type);
                   ("function_to_call", is_invalid f_function);
                   ("node_id", is_invalid f_node_id);
                   ("args", is_invalid f_args)]))
  end.

Definition FailureOperation_init (kwargs : gmap string pyval)
  : outcome SwarmOperation :=
  let f_id := optional_str_or kwargs "id" (generate_uuid "failure_op") in
  let f_type := literal_or_default kwargs "operation_type" "node_failure" in
  let f_node_id := optional_str kwargs "node_id" in
  match f_id, f_type, f_node_id with
  | Valid i, Valid t, Valid n =>
      Return {| id := i; operation_type := t; fields := FailureFields n |}
  | _, _, _ =>
      Raise (ValidationError "FailureOperation"
               (names_where
                  [("id", is_missing f_id);
                   ("operation_type", is_missing f_type);
                   ("node_id", is_missing f_node_id)])
               (names_where
                  [("id", is_invalid f_id);
                   ("operation_type", is_invalid f_type);
                   ("node_id", is_invalid f_node_id)]))
  end.

Definition UserCommunicationOperation_init (kwargs : gmap string pyval)
  : outcome SwarmOperation :=
  let f_id := optional_str_or kwargs "id" (generate_uuid "user_comms_op") in
  let f_type := literal_or_default kwargs "operation_type" "user_communication" in
  let f_node_id := required_str kwargs "node_id" in
  let f_message := required_str kwargs "message" in
  let f_context := dict_or_empty kwargs "context" in
  let f_next := required_str kwargs "next_function_to_call" in
  match f_id, f_type, f_node_id, f_message, f_context, f_next with
  | Valid i, Valid t, Valid n, Valid m, Valid c, Valid f =>
      Return {| id := i; operation_type := t;
                fields := UserCommunicationFields n m c f |}
  | _, _, _, _, _, _ =>
      Raise (ValidationError "UserCommunicationOperation"
               (names_where
                  [("id", is_missing f_id);
                   ("operation_type", is_missing f_type);
                   ("node_id", is_missing f_node_id);
                   ("message", is_missing f_message);
                   ("context", is_missing f_context);
                   ("next_function_to_call", is_missing f_next)])
               (names_where
                  [("id", is_invalid f_id);
                   ("operation_type", is_invalid f_type);
                   ("node_id", is_invalid f_node_id);
                   ("message", is_invalid f_message);
                   ("context", is_invalid f_context);
                   ("next_function_to_call", is_invalid f_next)]))
  end.

End Init.

(** The node an operation is bound to, where its class has a [node_id]. *)
Definition node_id_of (op : SwarmOperation) : option string :=
  match fields op with
  | BlockingFields n _ _ _ _ | ActionFields _ n _
  | UserCommunicationFields n _ _ _ => Some n
  | SpawnFields _ n _ _ | FailureFields n => n
  | TerminationFields _ _ _ | BaseFields => None
  end.

(** The continuation an operation names, where its class has one. *)
Definition next_function_to_call_of (op : SwarmOperation) : option string :=
  match fields op with
  | BlockingFields _ _ _ _ f | UserCommunicationFields _ _ _ f => Some f
  | _ => None
  end.

End Constructors.

(** ** swarmstar/core.py, [spawn_swarm] *)

Module CoreSpawn.
Import SwarmOperations Constructors.

Section SpawnSwarm.

(** [spawn_swarmstar_space] sets up the swarm's stores; it is not part
    of these sources. *)
Context {SwarmConfig World : Type}.
Variable generate_uuid : string -> string.
Variable spawn_swarmstar_space : SwarmConfig -> M World unit.

Definition spawn_swarm (swarm_config : SwarmConfig) (goal : string)
  : M World SwarmOperation :=
  (let* _ := spawn_swarmstar_space swarm_config in
   let* node_embryo :=
     lift (NodeEmbryo_init
             (<["action_id" :=
                  VStr "swarmstar/actions/reasoning/decompose_directive"]>
                (<["message" := VStr goal]> ∅))) in
   let root_spawn_operation :=
     SpawnOperation_init generate_uuid (Some node_embryo) ∅ in
   lift root_spawn_operation)%py.

End SpawnSwarm.
End CoreSpawn.

(** ** swarmstar/actions/communication/ask_user_questions.py, the other
       methods of [Action] *)

Module InitialQuestionAskerConversationState.
Record t : Type := {
  questions : list string;
  persisted_context : string;
  chat_name : string
}.
End InitialQuestionAskerConversationState.

Module QuestionAskerConversationState.
Record t : Type := {
  questions : list string;
  persisted_context : string;
  report : string
}.
End QuestionAskerConversationState.

Module Conversation.
Import SwarmOperations Constructors.

Definition nl : string := AskUserQuestions.nl.

(** [s.replace("\n", "\\n")]: every newline becomes a backslash and an
    [n]. *)
Fixpoint escape_newlines (s : string) : string :=
  match s with
  | EmptyString => EmptyString
  | String c s' =>
      if Ascii.eqb c (Ascii.ascii_of_nat 10)
      then String "\"%char (String "n"%char (escape_newlines s'))
      else String c (escape_newlines s')
  end.

Definition GENERATE_INITIAL_CONVERSATION_STATE_INSTRUCTIONS : string :=
  escape_newlines
    ("Steps:" +:+ nl +:+ nl
     +:+ "1. Identify the questions that need to be answered." +:+ nl
     +:+ "2. Persist critical context that is needed for the conversation from the goal. This "
     +:+ "context should be minimal and directly support the agent in maintaining the conversation." +:+ nl
     +:+ "3. Craft an initial message to the user that is concise and clear to avoid confusion." +:+ nl
     +:+ "4. Create a 2-4 word name for the conversation." +:+ nl +:+ nl
     +:+ "The reports aren't used as context throughout the conversation, so make sure all necessary context is in the persisted context.").

Definition UPDATE_CONVERSATION_STATE_INSTRUCTIONS : string :=
  escape_newlines
    ("Refine the conversation state based on the user's latest response." +:+ nl +:+ nl
     +:+ "Steps:" +:+ nl
     +:+ "1. Update Questions: Rewrite the list of questions by removing resolved items and adding new ones as needed." +:+ nl
     +:+ "2. Update Context: Rewrite the persisted context based off the most recent message. Keep it focused on essential "
     +:+ "information required for ongoing dialogue." +:+ nl
     +:+ "3. Add to Reports: Add answers and relevant information to the reports given the users message. This report is what "
     +:+ "will be sent back when the conversation ends. Keep it brief and actionable yet comprehensive. What you say will be "
     +:+ "appended to the current reports so do not repeat stuff already mentioned." +:+ nl +:+ nl
     +:+ "The reports aren't used as context throughout the conversation, so make sure all necessary context is in the persisted context.").

Definition GENERATE_MESSAGE_INSTRUCTIONS : string :=
  escape_newlines
    ("Generate a message to send to the user based on the current conversation state and the user's most recent message." +:+ nl
     +:+ "You are given a list of questions that need to be answered. Don't stray off topic and aim to get answers to the questions.").

Definition FINALIZE_REPORT_INSTRUCTIONS : string :=
  escape_newlines "Consolidate the list of reports into a final report.".

(** The names under which the class defines its methods. *)
Definition methods : list string :=
  ["main"; "generate_initial_conversation_state";
   "handle_initial_conversation_state"; "send_user_first_message";
   "generate_message"; "send_user_message"; "update_conversation_state";
   "decide_to_continue_or_end_conversation"; "finalize_report";
   "terminate_conversation"].

(** What a returned operation must be for the node to be resumed: bound
    to the node, of the given class, and continuing at a method the class
    defines. *)
Definition resumable (node : AskUserQuestions.SwarmNode) (kind : string)
    (op : SwarmOperation) : Prop :=
  operation_type op = kind /\
  node_id_of op = Some (AskUserQuestions.id node) /\
  exists next, next_function_to_call_of op = Some next /\ next ∈ methods.

Definition strs (l : list string) : pyval := VList (map VStr l).

(** [[{"role": role, "content": content}]] and its two-message form. *)
Definition chat_message (role content : string) : pyval :=
  VDict [("role", VStr role); ("content", VStr content)].

Section Action.

(** [self.log] comes from [BaseAction].  [repr_list] is what an f-string
    makes of a list of strings.  The methods decorated with
    [receive_completion_handler] are embedded by their bodies; where
    [decide_to_continue_or_end_conversation] calls the decorated
    [generate_message] through [self], the call is a parameter. *)
Context {World : Type}.
Variable generate_uuid : string -> string.
Variable log : pydict -> M World unit.
Variable repr_list : list string -> string.
Variable call_generate_message :
  string -> string -> list string -> QuestionAskerConversationState.t ->
  M World SwarmOperation.

Definition generate_initial_conversation_state (node : AskUserQuestions.SwarmNode)
  : M World SwarmOperation :=
  let system_message :=
    GENERATE_INITIAL_CONVERSATION_STATE_INSTRUCTIONS
    +:+ "You are initializing the conversation state. Extract questions and "
    +:+ "context from this message:" +:+ nl
    +:+ "`" +:+ AskUserQuestions.message node +:+ "`" in
  let messages := VList [chat_message "system" system_message] in
  (let* _ := log [("role", VStr "swarmstar");
                  ("content",
                   VStr ("We want to get answers to these questions from the user: "
                           +:+ AskUserQuestions.message node +:+ nl +:+ nl))] in
   let* _ := log [("role", VStr "system"); ("content", VStr system_message)] in
   lift (BlockingOperation_init generate_uuid
           (<["node_id" := VStr (AskUserQuestions.id node)]>
           (<["blocking_type" := VStr "instructor_completion"]>
           (<["args" := VDict [("messages", messages)]]>
           (<["context" :=
                VDict [("instructor_model_name",
                        VStr "InitialQuestionAskerConversationState")]]>
           (<["next_function_to_call" :=
                VStr "handle_initial_conversation_state"]> ∅)))))))%py.

Definition main (node : AskUserQuestions.SwarmNode) : M World SwarmOperation :=
  generate_initial_conversation_state node.

Definition handle_initial_conversation_state (node : AskUserQuestions.SwarmNode)
    (completion : InitialQuestionAskerConversationState.t)
  : M World SwarmOperation :=
  let questions := InitialQuestionAskerConversationState.questions completion in
  let persisted_context :=
    InitialQuestionAskerConversationState.persisted_context completion in
  let chat_name := InitialQuestionAskerConversationState.chat_name completion in
  (let* _ := log [("role", VStr "ai");
                  ("content",
                   VStr ("Generated chat name: " +:+ chat_name +:+ nl +:+ nl
                         +:+ "Questions: " +:+ repr_list questions +:+ nl +:+ nl
                         +:+ "Persisted Context: " +:+ persisted_context
                         +:+ nl +:+ nl))] in
   let system_message :=
     GENERATE_MESSAGE_INSTRUCTIONS
     +:+ "Questions: " +:+ repr_list questions +:+ nl +:+ nl
     +:+ "Context: " +:+ persisted_context +:+ nl +:+ nl
     +:+ "Start the conversation off with a message that is clear and concise." in
   let messages := VList [chat_message "system" system_message] in
   let* _ := log [("role", VStr "system"); ("content", VStr system_message)] in
   lift (BlockingOperation_init generate_uuid
           (<["node_id" := VStr (AskUserQuestions.id node)]>
           (<["blocking_type" := VStr "openai_completion"]>
           (<["args" := VDict [("messages", messages)]]>
           (<["context" :=
                VDict [("questions", strs questions);
                       ("persisted_context", VStr persisted_context);
                       ("reports", VList []);
                       ("chat_name", VStr chat_name)]]>
           (<["next_function_to_call" := VStr "send_user_first_message"]> ∅)))))))%py.

Definition send_user_first_message (node : AskUserQuestions.SwarmNode)
    (questions : list string) (persisted_context : string)
    (reports : list string) (chat_name completion : string)
  : M World SwarmOperation :=
  (let* _ := log [("role", VStr "ai"); ("content", VStr completion)] in
   lift (UserCommunicationOperation_init generate_uuid
           (<["node_id" := VStr (AskUserQuestions.id node)]>
           (<["message" := VStr completion]>
           (<["context" :=
                VDict [("questions", strs questions);
                       ("persisted_context", VStr persisted_context);
                       ("reports", strs reports);
                       ("recent_ai_message", VStr completion);
                       ("chat_name", VStr chat_name)]]>
           (<["next_function_to_call" := VStr "update_conversation_state"]> ∅))))))%py.

Definition generate_message (node : AskUserQuestions.SwarmNode)
    (user_message recent_ai_message : string) (reports : list string)
    (completion : QuestionAskerConversationState.t)
  : M World SwarmOperation :=
  let questions := QuestionAskerConversationState.questions completion in
  let persisted_context :=
    QuestionAskerConversationState.persisted_context completion in
  (let* _ := log [("role", VStr "ai");
                  ("content",
                   VStr ("Questions: " +:+ repr_list questions +:+ nl +:+ nl
                         +:+ "Persisted Context: " +:+ persisted_context
                         +:+ nl +:+ nl
                         +:+ "New Report: "
                         +:+ QuestionAskerConversationState.report completion
                         +:+ nl +:+ nl))] in
   let system_message :=
     GENERATE_MESSAGE_INSTRUCTIONS
     +:+ "Questions: " +:+ repr_list questions +:+ nl +:+ nl
     +:+ "Context: " +:+ persisted_context +:+ nl +:+ nl
     +:+ "User's most recent message: " +:+ user_message +:+ nl
     +:+ "Your most recent message: " +:+ recent_ai_message in
   let messages := VList [chat_message "system" system_message] in
   let* _ := log [("role", VStr "system"); ("content", VStr system_message)] in
   lift (BlockingOperation_init generate_uuid
           (<["node_id" := VStr (AskUserQuestions.id node)]>
           (<["blocking_type" := VStr "openai_completion"]>
           (<["args" := VDict [("messages", messages)]]>
           (<["context" :=
                VDict [("questions", strs questions);
                       ("persisted_context", VStr persisted_context);
                       ("reports", strs reports)]]>
           (<["next_function_to_call" := VStr "send_user_message"]> ∅)))))))%py.

Definition send_user_message (node : AskUserQuestions.SwarmNode)
    (questions : list string) (persisted_context : string)
    (reports : list string) (completion : string)
  : M World SwarmOperation :=
  (let* _ := log [("role", VStr "ai"); ("content", VStr completion)] in
   lift (UserCommunicationOperation_init generate_uuid
           (<["node_id" := VStr (AskUserQuestions.id node)]>
           (<["message" := VStr completion]>
           (<["context" :=
                VDict [("questions", strs questions);
                       ("persisted_context", VStr persisted_context);
                       ("reports", strs reports);
                       ("recent_ai_message", VStr completion)]]>
           (<["next_function_to_call" := VStr "update_conversation_state"]> ∅))))))%py.

Definition update_conversation_state (node : AskUserQuestions.SwarmNode)
    (questions : list string) (persisted_context : string)
    (reports : list string) (recent_ai_message user_response : string)
  : M World SwarmOperation :=
  (let* _ := log [("role", VStr "user"); ("content", VStr user_response)] in
   let system_message :=
     UPDATE_CONVERSATION_STATE_INSTRUCTIONS
     +:+ "Update Questions: " +:+ repr_list questions +:+ nl +:+ nl
     +:+ "Update Context: " +:+ persisted_context +:+ nl +:+ nl
     +:+ "Add to Reports: " +:+ repr_list reports +:+ nl +:+ nl
     +:+ "Your (you, the ais) most recent message: " +:+ recent_ai_message in
   let messages :=
     VList [chat_message "system" system_message;
            chat_message "user" user_response] in
   let* _ := log [("role", VStr "system"); ("content", VStr system_message)] in
   lift (BlockingOperation_init generate_uuid
           (<["node_id" := VStr (AskUserQuestions.id node)]>
           (<["blocking_type" := VStr "instructor_completion"]>
           (<["args" := VDict [("messages", messages)]]>
           (<["context" :=
                VDict [("reports", strs reports);
                       ("user_response", VStr user_response);
                       ("recent_ai_message", VStr recent_ai_message);
                       ("instructor_model_name",
                        VStr "QuestionAskerConversationState")]]>
           (<["next_function_to_call" :=
                VStr "decide_to_continue_or_end_conversation"]> ∅)))))))%py.

Definition finalize_report (node : AskUserQuestions.SwarmNode)
    (reports : list string) : M World SwarmOperation :=
  (let* _ := log [("role", VStr "swarmstar");
                  ("content", VStr "Finalizing the report.")] in
   let system_message :=
     FINALIZE_REPORT_INSTRUCTIONS
     +:+ nl +:+ nl +:+ "Reports: " +:+ repr_list reports in
   let messages := VList [chat_message "system" system_message] in
   let* _ := log [("role", VStr "system"); ("content", VStr system_message)] in
   lift (BlockingOperation_init generate_uuid
           (<["node_id" := VStr (AskUserQuestions.id node)]>
           (<["blocking_type" := VStr "openai_completion"]>
           (<["args" := VDict [("messages", messages)]]>
           (<["context" := VDict []]>
           (<["next_function_to_call" := VStr "terminate_conversation"]> ∅)))))))%py.

(** [reports.append(completion.report)] changes the caller's list in
    place; here the longer list is the one used from then on. *)
Definition decide_to_continue_or_end_conversation
    (node : AskUserQuestions.SwarmNode) (reports : list string)
    (user_response recent_ai_message : string)
    (completion : QuestionAskerConversationState.t)
  : M World SwarmOperation :=
  let questions := QuestionAskerConversationState.questions completion in
  let reports :=
    (reports ++ [QuestionAskerConversationState.report completion])%list in
  if bool_decide (questions = []) || (length questions =? 0)%nat then
    (let* _ := log [("role", VStr "ai");
                    ("content",
                     VStr ("Questions: " +:+ repr_list questions +:+ nl +:+ nl
                           +:+ "Persisted Context: "
                           +:+ QuestionAskerConversationState.persisted_context
                                 completion
                           +:+ nl +:+ nl
                           +:+ "New Report: "
                           +:+ QuestionAskerConversationState.report completion
                           +:+ nl +:+ nl))] in
     finalize_report node reports)%py
  else
    call_generate_message user_response recent_ai_message reports completion.

End Action.
End Conversation.

(** ** tool_building/swarm/agent.py *)

Module Agent.

(** A chat completion, as far as the class reads it:
    [completion.choices[0].message.tool_calls], each call with
    [function.name] and [function.arguments].  [choices] is taken to be
    non-empty, and [tool_calls] may be [None]. *)
Record Function : Type := {
  name : string;
  arguments : string
}.

Record ToolCall : Type := {
  function : Function
}.

Record Message : Type := {
  tool_calls : option (list ToolCall)
}.

Record Choice : Type := {
  message : Message
}.

Record Completion : Type := {
  first_choice : Choice;
  other_choices : list Choice
}.

(** [Agent.__init__]. *)
Record Agent : Type := {
  instructions : string;
  tools : pyval;
  tool_choice : pyval
}.

Section Methods.

(** [json.loads]; the awaited [client.chat.completions.create], with its
    fixed [model] and [temperature]; and what [print] makes of a
    completion and of a dictionary.  The state is the text printed so
    far, one entry for each call of [print]. *)
Variable json_loads : string -> outcome pyval.
Variable create : pyval -> pyval -> pyval -> outcome Completion.
Variable str_completion : Completion -> string.
Variable str_dict : gmap string pyval -> string.

Definition print (text : string) : M (list string) unit :=
  fun out => (Return tt, (out ++ [text])%list).

(** The body of the loop, acting on [tool_output]. *)
Definition record_tool_call (tool_call : ToolCall)
  : M (gmap string pyval) unit :=
  fun tool_output =>
    let tool_output :=
      <["function_name" := VStr (name (function tool_call))]> tool_output in
    match json_loads (arguments (function tool_call)) with
    | Return v => (Return tt, <["arguments" := v]> tool_output)
    | Raise e => (Raise e, tool_output)
    end.

Definition get_tool_output (completion : Completion)
  : M (list string) (gmap string pyval) :=
  match tool_calls (message (first_choice completion)) with
  | None => raise (TypeError "'NoneType' object is not iterable")
  | Some calls =>
      match for_each calls record_tool_call ∅ with
      | (Return _, tool_output) =>
          (let* _ := print (str_dict tool_output) in ret tool_output)%py
      | (Raise e, _) => raise e
      end
  end.

Definition nl : string := String (Ascii.ascii_of_nat 10) EmptyString.

(** The coroutine [chat], as the sequence of its statements; its one
    [await] is the call of [create].  [None] stands for the bare
    [return]. *)
Definition chat (self : Agent) (user_message : string)
  : M (list string) (option (gmap string pyval)) :=
  let messages :=
    VList [VDict [("role", VStr "system"); ("content", VStr (instructions self))];
           VDict [("role", VStr "user"); ("content", VStr user_message)]] in
  (let* caught :=
     try_except
       (let* _ := print user_message in
        let* completion :=
          lift (create messages (tools self) (tool_choice self)) in
        let* _ := print (nl +:+ nl +:+ str_completion completion) in
        ret (Some completion))
       (fun _ => true)
       (fun e =>
          let* _ := print ("Exception occurred: " +:+ exn_str e) in
          ret None) in
   match caught with
   | None => ret None
   | Some completion =>
       let* tool_output := get_tool_output completion in
       ret (Some tool_output)
   end)%py.

(** The dictionary after a loop in which every call parsed. *)
Definition record_parsed (tool_output : gmap string pyval)
    (tool_call : ToolCall) : gmap string pyval :=
  match json_loads (arguments (function tool_call)) with
  | Return v =>
      <["arguments" := v]>
        (<["function_name" := VStr (name (function tool_call))]> tool_output)
  | Raise _ => tool_output
  end.

Definition parses (tool_call : ToolCall) : Prop :=
  exists v, json_loads (arguments (function tool_call)) = Return v.

End Methods.
End Agent.

(** ** Further concrete instances *)

Module MoreExamples.

(** A shared store in which the root's child lists the root again. *)
Definition looping_root : MetadataTree.Node :=
  {| MetadataTree.id := "root"; MetadataTree.type := "portal";
     MetadataTree.children_ids := Some ["loop"]; MetadataTree.rest := [] |}.
Definition looping_child : MetadataTree.Node :=
  {| MetadataTree.id := "loop"; MetadataTree.type := "folder";
     MetadataTree.children_ids := Some ["root"]; MetadataTree.rest := [] |}.

Definition get_looping (coll node_id : string) : outcome MetadataTree.Node :=
  if String.eqb node_id "root" then Return looping_root
  else if String.eqb node_id "loop" then Return looping_child
  else Raise (ValueError ("No value for key " +:+ node_id)).

(** A uuid source that numbers every id [1]. *)
Definition first_uuid (prefix : string) : string := prefix +:+ "_1".

(** A log that counts its entries. *)
Definition counting_log (entry : pydict) : M nat unit :=
  fun w => (Return tt, S w).

Definition asking_node : AskUserQuestions.SwarmNode :=
  {| AskUserQuestions.id := "node_7";
     AskUserQuestions.message := "Which database should the report use?" |}.

(** A list of strings as Python shows it when no string needs
    escaping. *)
Definition plain_repr (l : list string) : string :=
  "[" +:+ String.concat ", " (map (fun s => "'" +:+ s +:+ "'") l) +:+ "]".

Definition answered : QuestionAskerConversationState.t :=
  {| QuestionAskerConversationState.questions := [];
     QuestionAskerConversationState.persisted_context := "The user wants sqlite.";
     QuestionAskerConversationState.report := "Use sqlite." |}.

(** The decorated [generate_message], taken here to run its body. *)
Definition run_generate_message (user_message recent_ai_message : string)
    (reports : list string) (completion : QuestionAskerConversationState.t)
  : M nat SwarmOperations.SwarmOperation :=
  Conversation.generate_message first_uuid counting_log plain_repr
    asking_node user_message recent_ai_message reports completion.

(** A parser that knows two documents. *)
Definition tiny_json (text : string) : outcome pyval :=
  if String.eqb text "{}" then Return (VDict [])
  else if String.eqb text "[1]" then Return (VList [VInt 1])
  else Raise (ValueError "Expecting value: line 1 column 1 (char 0)").

Definition tool_call (name arguments : string) : Agent.ToolCall :=
  {| Agent.function :=
       {| Agent.name := name; Agent.arguments := arguments |} |}.

Definition completion_with (calls : option (list Agent.ToolCall))
  : Agent.Completion :=
  {| Agent.first_choice := {| Agent.message := {| Agent.tool_calls := calls |} |};
     Agent.other_choices := [] |}.

Definition show_completion (completion : Agent.Completion) : string :=
  "ChatCompletion".

Definition show_dict (d : gmap string pyval) : string :=
  if bool_decide (d = ∅) then "{}" else "{...}".

(** A request that always fails. *)
Definition failing_create (messages tools tool_choice : pyval)
  : outcome Agent.Completion :=
  Raise (ValueError "rate limit exceeded").

Definition helper_agent : Agent.Agent :=
  {| Agent.instructions := "Pick a tool.";
     Agent.tools := VList [];
     Agent.tool_choice := VStr "auto" |}.

End MoreExamples.

(** * Properties *)

(** ** The dispatcher *)

Section DispatcherFacts.
Import SwarmOperations Core.

Context {SwarmConfig World : Type}.
Variables spawn blocking terminate failure : @handler SwarmConfig World.

Lemma operation_mapping_keys (key : string) :
  operation_mapping spawn blocking terminate failure !! key = None <->
  key ∉ ["spawn"; "blocking"; "terminate"; "node_failure"].
Proof.
  unfold operation_mapping.
  rewrite !lookup_insert, lookup_empty.
  rewrite !not_elem_of_cons.
  repeat case_decide; subst; split; try done; try tauto.
  intros _. repeat split; try congruence. apply not_elem_of_nil.
Qed.

(** An operation whose type has no handler: the error is raised and the
    state is the one the dispatcher was entered with. *)
Lemma execute_unmapped (swarm_config : SwarmConfig) (op : SwarmOperation)
    (st : DispatchState) :
  operation_mapping spawn blocking terminate failure !! operation_type op
    = None ->
  execute_swarmstar_operation spawn blocking terminate failure
      swarm_config op st =
    (Raise (ValueError ("Unknown swarm operation type: " +:+ operation_type op)),
     st).
Proof.
  intros Hnone. unfold execute_swarmstar_operation, bind, raise.
  by rewrite Hnone.
Qed.

(** C1 (as amended): when the operation's type has a registered handler
    and the handler returns, the dispatcher returns [None] for [None], a
    one-element list for a single operation, and the list of the elements,
    in order, for a tuple or a list (any other value is wrapped in a
    one-element list); the handler was called once. *)
Theorem execute_normalizes_output (swarm_config : SwarmConfig)
    (op : SwarmOperation) (st : DispatchState) (h : handler)
    (output : pyobj) (w' : World) :
  operation_mapping spawn blocking terminate failure !! operation_type op
    = Some h ->
  h swarm_config op (world st) = (Return output, w') ->
  execute_swarmstar_operation spawn blocking terminate failure
      swarm_config op st =
    (Return match output with
            | PyNone => PyNone
            | PyOp single => PyList [PyOp single]
            | PyTuple items => PyList items
            | PyList items => PyList items
            | PyOther v => PyList [PyOther v]
            end,
     {| world := w'; invoked := invoked st ++ [(operation_type op, op)] |}).
Proof.
  intros Hh Hrun.
  unfold execute_swarmstar_operation, bind, call_handler, ret.
  rewrite Hh, Hrun. by destruct output.
Qed.

(** C2: an operation whose type is not a key of the handler mapping makes
    the dispatcher raise [ValueError] at once: the world is untouched and
    no handler invocation is added. *)
Theorem execute_unknown_operation_type (swarm_config : SwarmConfig)
    (op : SwarmOperation) (st : DispatchState) :
  operation_type op ∉ dom (operation_mapping spawn blocking terminate failure) ->
  execute_swarmstar_operation spawn blocking terminate failure
      swarm_config op st =
    (Raise (ValueError ("Unknown swarm operation type: " +:+ operation_type op)),
     st).
Proof.
  intros Hkey. apply execute_unmapped. by apply not_elem_of_dom.
Qed.

(** C9: a well-formed operation of type ["user_communication"] or
    ["action"] is answered with the unknown-type error, the mapping having
    only the keys ["spawn"], ["blocking"], ["terminate"] and
    ["node_failure"]. *)
Theorem execute_rejects_declared_types (swarm_config : SwarmConfig)
    (op : SwarmOperation) (st : DispatchState) :
  well_formed op ->
  operation_type op = "user_communication" \/ operation_type op = "action" ->
  dom (operation_mapping spawn blocking terminate failure)
    = {["spawn"; "blocking"; "terminate"; "node_failure"]} /\
  operation_type op ∈ operation_type_literal /\
  execute_swarmstar_operation spawn blocking terminate failure
      swarm_config op st =
    (Raise (ValueError ("Unknown swarm operation type: " +:+ operation_type op)),
     st).
Proof.
  intros _ Hty. split; [|split].
  - unfold operation_mapping. rewrite !dom_insert_L, dom_empty_L. set_solver.
  - unfold operation_type_literal. destruct Hty as [-> | ->]; set_solver.
  - apply execute_unmapped, operation_mapping_keys.
    rewrite !not_elem_of_cons.
    destruct Hty as [-> | ->]; repeat split; try discriminate;
      apply not_elem_of_nil.
Qed.

End DispatcherFacts.

(** ** The monad *)

Lemma bind_assoc {W A B C} (m : M W A) (f : A -> M W B) (g : B -> M W C)
    (w : W) :
  bind (bind m f) g w = bind m (fun x => bind (f x) g) w.
Proof. unfold bind. by destruct (m w) as [[a|e] w']. Qed.

Lemma bind_ext {W A B} (m : M W A) (f g : A -> M W B) (w : W) :
  (forall x w', f x w' = g x w') -> bind m f w = bind m g w.
Proof. intros H. unfold bind. destruct (m w) as [[a|e] w']; auto. Qed.

(** ** The portal cloner *)

Section PortalCloneFacts.
Import MetadataTree.

Context {DB : Type}.
Variable get_internal_sqlite : string -> string -> outcome Node.
Variable db_insert : string -> string -> Node -> M DB unit.
Variable collection : string.

Lemma replay_app (cs1 cs2 : list Call) (st : @CloneState DB) :
  replay db_insert (cs1 ++ cs2) st =
  bind (replay db_insert cs1) (fun _ => replay db_insert cs2) st.
Proof.
  revert st. induction cs1 as [|c cs1 IH]; intros st; simpl.
  - reflexivity.
  - destruct c as [coll i | coll k r].
    + rewrite IH. reflexivity.
    + rewrite bind_assoc. apply bind_ext. intros _ st'. apply IH.
Qed.

(** When no insert raises, a replay returns, logs every call and leaves
    the store the inserts made. *)
Lemma replay_returns (cs : list Call) (st : @CloneState DB) :
  (forall coll k r db, fst (db_insert coll k r db) = Return tt) ->
  replay db_insert cs st =
    (Return tt, {| instance_store := run_inserts db_insert cs (instance_store st);
                   calls := calls st ++ cs |}).
Proof.
  intros Hok. revert st. induction cs as [|c cs IH]; intros st; simpl.
  - rewrite app_nil_r. by destruct st.
  - destruct c as [coll i | coll k r].
    + rewrite IH. simpl. by rewrite <- app_assoc.
    + unfold bind, insert_record. specialize (Hok coll k r (instance_store st)).
      destruct (db_insert coll k r (instance_store st)) as [o db'].
      simpl in Hok. subst o. rewrite IH. simpl. by rewrite <- app_assoc.
Qed.

Lemma stored_tree_unfold (i : string) (n : Node) (ts : list Tree) :
  stored_tree get_internal_sqlite collection (Visit i n ts) <->
  get_internal_sqlite collection i = Return n /\
  map fetched_id ts = children n /\
  Forall (stored_tree get_internal_sqlite collection) ts.
Proof.
  simpl. do 2 (apply and_iff_compat_l).
  induction ts as [|t ts IH]; simpl.
  - split; [constructor | done].
  - rewrite Forall_cons. by rewrite IH.
Qed.

Lemma depth_subtrees (i : string) (n : Node) (ts : list Tree) (fuel : nat) :
  depth (Visit i n ts) <= S fuel -> Forall (fun t => depth t <= fuel) ts.
Proof.
  simpl. intros H. apply le_S_n in H. revert H.
  induction ts as [|t ts IH]; simpl; intros H; constructor.
  - lia.
  - apply IH. lia.
Qed.

Lemma fetch_stored {A} (i : string) (n : Node) (k : Node -> M (@CloneState DB) A)
    (st : @CloneState DB) :
  get_internal_sqlite collection i = Return n ->
  bind (fetch get_internal_sqlite collection i) k st =
  k n {| instance_store := instance_store st;
         calls := calls st ++ [Get collection i] |}.
Proof. intros Hget. unfold bind, fetch. by rewrite Hget. Qed.

(** The loop over the children, given that each recursive call does what
    the walk of its subtree says. *)
Lemma children_loop (fuel : nat) (swarm_id : string) (ts : list Tree) :
  Forall (fun t => forall st,
            get_internal_sqlite collection (fetched_id t) = Return (node_of t) /\
            recursive_helper get_internal_sqlite db_insert collection
              fuel swarm_id (node_of t) st =
            replay db_insert (tail (walk collection swarm_id t)) st) ts ->
  forall st,
    for_each (map fetched_id ts) (fun child_id =>
        bind (fetch get_internal_sqlite collection child_id)
          (fun child_node =>
             recursive_helper get_internal_sqlite db_insert collection
               fuel swarm_id child_node)) st =
    replay db_insert (flat_map (walk collection swarm_id) ts) st.
Proof.
  induction 1 as [|t ts Ht _ IH]; intros st.
  - reflexivity.
  - destruct t as [i n sub].
    destruct (Ht st) as [Hget _].
    cbn [map for_each flat_map fetched_id node_of] in *.
    rewrite replay_app, bind_assoc, (fetch_stored _ _ _ _ Hget).
    cbn [walk]. unfold bind. cbn [replay].
    destruct (Ht {| instance_store := instance_store st;
                    calls := calls st ++ [Get collection i] |}) as [_ Hrec].
    cbn [walk tail] in Hrec. rewrite Hrec.
    destruct (replay db_insert _ _) as [[[]|e] st'].
    + apply IH.
    + reflexivity.
Qed.

Lemma recursive_helper_replay (fuel : nat) (swarm_id : string) (t : Tree)
    (st : @CloneState DB) :
  stored_tree get_internal_sqlite collection t ->
  depth t <= fuel ->
  recursive_helper get_internal_sqlite db_insert collection
    fuel swarm_id (node_of t) st =
  replay db_insert (tail (walk collection swarm_id t)) st.
Proof.
  revert t st. induction fuel as [|fuel IH]; intros [i n ts] st Hst Hd.
  - simpl in Hd. lia.
  - apply stored_tree_unfold in Hst as (Hget & Hkids & Hsub).
    apply depth_subtrees in Hd.
    assert (Hloop : forall st',
      for_each (children n) (fun child_id =>
        bind (fetch get_internal_sqlite collection child_id)
          (fun child_node =>
             recursive_helper get_internal_sqlite db_insert collection
               fuel swarm_id child_node)) st' =
      replay db_insert (flat_map (walk collection swarm_id) ts) st').
    { rewrite <- Hkids. apply children_loop.
      rewrite Forall_forall in Hsub, Hd. apply Forall_forall.
      intros t Hin st'. split.
      - specialize (Hsub t Hin). destruct t. by apply stored_tree_unfold in Hsub as [? _].
      - apply IH; auto. }
    cbn [recursive_helper node_of walk tail].
    rewrite replay_app. unfold bind at 1 2.
    assert (Hbody : forall st',
      (if truthy (children_ids n)
       then for_each (children n) (fun child_id =>
              bind (fetch get_internal_sqlite collection child_id)
                (fun child_node =>
                   recursive_helper get_internal_sqlite db_insert collection
                     fuel swarm_id child_node))
       else ret tt) st' =
      replay db_insert (flat_map (walk collection swarm_id) ts) st').
    { intros st'. destruct (truthy (children_ids n)) eqn:Htr.
      - apply Hloop.
      - rewrite <- Hloop. unfold children.
        destruct (children_ids n) as [[|]|]; try discriminate; reflexivity. }
    unfold is_portal. destruct (String.eqb (type n) "portal").
    + simpl. unfold bind.
      destruct (insert_record db_insert collection _ n st) as [[[]|e] st'].
      * apply Hbody.
      * reflexivity.
    + simpl. unfold ret. apply Hbody.
Qed.

Lemma portal_clone_replay (fuel : nat) (swarm_id : string) (t : Tree)
    (st : @CloneState DB) :
  stored_tree get_internal_sqlite collection t ->
  fetched_id t = internal_root_node_id ->
  depth t <= fuel ->
  portal_clone get_internal_sqlite db_insert collection fuel swarm_id st =
  replay db_insert (walk collection swarm_id t) st.
Proof.
  intros Hst Hroot Hd. unfold portal_clone. rewrite <- Hroot.
  pose proof (recursive_helper_replay fuel swarm_id t) as Hrec.
  destruct t as [i n ts].
  pose proof Hst as Hst'. apply stored_tree_unfold in Hst' as [Hget _].
  cbn [fetched_id]. rewrite (fetch_stored _ _ _ _ Hget).
  cbn [walk replay]. by apply Hrec.
Qed.

Lemma Tree_forall_ind (P : Tree -> Prop) :
  (forall i n ts, Forall P ts -> P (Visit i n ts)) -> forall t, P t.
Proof.
  intros H. fix IH 1. intros [i n ts]. apply H.
  induction ts as [|t ts IHts]; constructor; [apply IH | exact IHts].
Qed.

Lemma filter_flat_map {A B} (f : B -> bool) (g : A -> list B) (l : list A) :
  List.filter f (flat_map g l) = flat_map (fun x => List.filter f (g x)) l.
Proof.
  induction l as [|x l IH]; simpl; [done|].
  by rewrite List.filter_app, IH.
Qed.

Lemma map_flat_map {A B C} (f : B -> C) (g : A -> list B) (l : list A) :
  map f (flat_map g l) = flat_map (fun x => map f (g x)) l.
Proof.
  induction l as [|x l IH]; simpl; [done|].
  by rewrite map_app, IH.
Qed.

Lemma flat_map_Forall_ext {A B} (f g : A -> list B) (l : list A) :
  Forall (fun x => f x = g x) l -> flat_map f l = flat_map g l.
Proof. induction 1 as [|x l Hx _ IH]; simpl; [done|]. by rewrite Hx, IH. Qed.

(** The inserts of a walk are the shadow copies of the portal nodes
    visited, one each, in visiting order. *)
Lemma inserts_walk (swarm_id : string) (t : Tree) :
  inserts (walk collection swarm_id t) = shadows collection swarm_id t.
Proof.
  unfold inserts, shadows. induction t as [i n ts IH] using Tree_forall_ind.
  cbn [walk visited map fst snd List.filter is_insert].
  rewrite List.filter_app, filter_flat_map, map_flat_map, filter_flat_map.
  rewrite (flat_map_Forall_ext _ _ _ IH).
  destruct (is_portal n); cbn [map List.filter app];
    by rewrite map_flat_map.
Qed.

(** The fetches of a walk are those of the visited nodes, in order. *)
Lemma gets_walk (swarm_id : string) (t : Tree) :
  gets (walk collection swarm_id t)
  = map (fun v => Get collection (fst v)) (visited t).
Proof.
  unfold gets. induction t as [i n ts IH] using Tree_forall_ind.
  cbn [walk visited map fst List.filter is_insert negb].
  rewrite List.filter_app, filter_flat_map, map_flat_map.
  rewrite (flat_map_Forall_ext _ _ _ IH).
  destruct (is_portal n); reflexivity.
Qed.


Lemma run_inserts_inserts (cs : list Call) (db : DB) :
  run_inserts db_insert (inserts cs) db = run_inserts db_insert cs db.
Proof.
  unfold run_inserts, inserts. revert db.
  induction cs as [|[coll i|coll k r] cs IH]; intros db; simpl; auto.
Qed.

Lemma elem_of_flat_map_intro {A B} (f : A -> list B) (l : list A) (x : A) (y : B) :
  x ∈ l -> y ∈ f x -> y ∈ flat_map f l.
Proof.
  intros Hx Hy. apply list_elem_of_In, in_flat_map.
  exists x. by rewrite <- !list_elem_of_In.
Qed.

(** Every id in the [children_ids] of a visited node is itself fetched. *)
Lemma visited_children_fetched (t : Tree) :
  stored_tree get_internal_sqlite collection t ->
  forall v child_id,
    v ∈ visited t -> child_id ∈ children (snd v) ->
    child_id ∈ map fst (visited t).
Proof.
  induction t as [i n ts IH] using Tree_forall_ind.
  intros Hst v c Hv Hc.
  apply stored_tree_unfold in Hst as (_ & Hkids & Hsub).
  cbn [visited map fst] in *. apply elem_of_cons. right.
  rewrite map_flat_map.
  apply elem_of_cons in Hv as [-> | Hv].
  - cbn [snd] in Hc. rewrite <- Hkids in Hc.
    apply list_elem_of_fmap in Hc as (t' & -> & Ht').
    apply (elem_of_flat_map_intro _ _ t'); [done|].
    destruct t'. cbn. apply list_elem_of_here.
  - apply list_elem_of_In, in_flat_map in Hv as (t' & Ht' & Hv).
    apply list_elem_of_In in Ht', Hv.
    apply (elem_of_flat_map_intro _ _ t'); [done|].
    rewrite Forall_forall in IH, Hsub. by apply (IH t' Ht' (Hsub t' Ht') v c).
Qed.

(** C3: on a shared tree stored under the root id, [portal_clone] makes
    exactly the calls of the depth-first walk.  It fetches the root and
    every id in the [children_ids] of every visited node; it inserts one
    shadow copy, keyed ["{S}_{node_id}"], for each visited node of type
    ["portal"], and nothing else.  When no insert raises it returns, the
    instance store being the result of these inserts. *)
Theorem portal_clone_copies_portals (fuel : nat) (swarm_id : string)
    (t : Tree) (st : @CloneState DB) :
  stored_tree get_internal_sqlite collection t ->
  fetched_id t = internal_root_node_id ->
  depth t <= fuel ->
  portal_clone get_internal_sqlite db_insert collection fuel swarm_id st
    = replay db_insert (walk collection swarm_id t) st /\
  inserts (walk collection swarm_id t)
    = map (fun n => Insert collection (swarm_id +:+ "_" +:+ id n) n)
        (List.filter (fun n => String.eqb (type n) "portal")
           (map snd (visited t))) /\
  gets (walk collection swarm_id t)
    = map (fun v => Get collection (fst v)) (visited t) /\
  (forall v child_id,
      v ∈ visited t -> child_id ∈ children (snd v) ->
      child_id ∈ map fst (visited t)) /\
  ((forall coll k r db, fst (db_insert coll k r db) = Return tt) ->
   portal_clone get_internal_sqlite db_insert collection fuel swarm_id st
     = (Return tt,
        {| instance_store :=
             run_inserts db_insert (shadows collection swarm_id t)
               (instance_store st);
           calls := calls st ++ walk collection swarm_id t |})).
Proof.
  intros Hst Hroot Hd.
  pose proof (portal_clone_replay fuel swarm_id t st Hst Hroot Hd) as Hrun.
  split; [exact Hrun|]. split; [apply inserts_walk|].
  split; [apply gets_walk|]. split; [by apply visited_children_fetched|].
  intros Hok. rewrite Hrun, (replay_returns _ _ Hok).
  by rewrite <- inserts_walk, run_inserts_inserts.
Qed.


End PortalCloneFacts.

(** ** The action resolver *)

Lemma is_prefix_append (s t : string) : is_prefix s (s +:+ t) = true.
Proof.
  induction s as [|a s IH]; simpl; [done|].
  by rewrite Ascii.eqb_refl.
Qed.

Lemma contains_prefix (s t : string) : is_prefix s t = true -> contains s t = true.
Proof. intros H. destruct t; simpl in *; by rewrite H. Qed.

Lemma contains_append_l (s p t : string) :
  contains s t = true -> contains s (p +:+ t) = true.
Proof.
  intros H. induction p as [|a p IH]; simpl; [done|].
  rewrite IH. apply orb_true_r.
Qed.

(** A message built around a name contains the name. *)
Lemma contains_infix (s p q : string) : contains s (p +:+ s +:+ q) = true.
Proof. apply contains_append_l, contains_prefix, is_prefix_append. Qed.

Lemma is_prefix_append_r (s t r : string) :
  is_prefix s t = true -> is_prefix s (t +:+ r) = true.
Proof.
  revert t. induction s as [|a s IH]; intros [|b t]; simpl; try done.
  destruct (Ascii.eqb a b); [apply IH | done].
Qed.

Lemma contains_append_r (s t r : string) :
  contains s t = true -> contains s (t +:+ r) = true.
Proof.
  induction t as [|b t IH]; simpl.
  - rewrite orb_false_r. intros H. by apply contains_prefix, (is_prefix_append_r s "" r).
  - intros [H|H]%orb_true_iff.
    + pose proof (is_prefix_append_r s (String b t) r H) as H'.
      change (is_prefix s (String b (t +:+ r)) = true) in H'. by rewrite H'.
    + rewrite (IH H). apply orb_true_r.
Qed.

Lemma KeyError_names (k p q : string) :
  contains k (exn_str (KeyError (Some (p +:+ k +:+ q)))) = true.
Proof.
  cbn [exn_str]. apply contains_append_l, contains_append_r, contains_infix.
Qed.

Lemma AttributeError_names (k a b c d : string) :
  contains k (exn_str (AttributeError (a +:+ b +:+ c +:+ k +:+ d))) = true.
Proof.
  cbn [exn_str]. apply contains_append_l, contains_append_l, contains_infix.
Qed.

Section ResolverFacts.
Import Action.

Variable get_action_space_metadata :
  SwarmID -> outcome (gmap string ActionMetadata).
Variable import_module : string -> outcome PyModule.

(** The error raised for a required key that is missing or [None]. *)
Lemma missing_config_step (swarm_id : SwarmID) (config : string)
    (rest : list string) (st : ActionState) :
  config_missing swarm_id config = true ->
  exists e,
    inject_required_configs (config :: rest) swarm_id st = (Raise e, st) /\
    (e = KeyError (Some ("Config " +:+ config
                           +:+ " not found in swarm configs or value is None"))
     \/ e = AttributeError ("'" +:+ class_name (configs swarm_id)
                              +:+ "' object has no attribute '"
                              +:+ config +:+ "'")) /\
    contains config (exn_str e) = true.
Proof.
  unfold config_missing, inject_required_configs. cbn [for_each].
  unfold bind at 1, try_except, bind, lift, getattr.
  destruct (attributes (configs swarm_id) !! config) as [v|] eqn:Hv.
  - destruct v; try discriminate. intros _.
    eexists. split; [reflexivity|]. split; [by left|].
    apply KeyError_names.
  - intros _. eexists. split; [reflexivity|]. split; [by right|].
    apply AttributeError_names.
Qed.

(** A required key with a value is copied into [params]. *)
Lemma present_config_step (swarm_id : SwarmID) (config : string)
    (rest : list string) (st : ActionState) :
  config_missing swarm_id config = false ->
  exists v,
    attributes (configs swarm_id) !! config = Some v /\
    inject_required_configs (config :: rest) swarm_id st =
    inject_required_configs rest swarm_id
      {| params := <[config := v]> (params st); entered := entered st |}.
Proof.
  unfold config_missing, inject_required_configs. cbn [for_each].
  unfold bind at 1, try_except, bind, lift, getattr.
  destruct (attributes (configs swarm_id) !! config) as [v|] eqn:Hv;
    [|discriminate].
  intros Hmiss. exists v. split; [done|].
  destruct v; try discriminate; reflexivity.
Qed.

Lemma inject_first_missing (swarm_id : SwarmID) (required : list string)
    (k0 : string) (st : ActionState) :
  List.find (config_missing swarm_id) required = Some k0 ->
  exists e st',
    inject_required_configs required swarm_id st = (Raise e, st') /\
    entered st' = entered st /\
    (e = KeyError (Some ("Config " +:+ k0
                           +:+ " not found in swarm configs or value is None"))
     \/ e = AttributeError ("'" +:+ class_name (configs swarm_id)
                              +:+ "' object has no attribute '"
                              +:+ k0 +:+ "'")) /\
    contains k0 (exn_str e) = true.
Proof.
  revert st. induction required as [|c required IH]; intros st; cbn [List.find].
  - discriminate.
  - destruct (config_missing swarm_id c) eqn:Hc.
    + intros [= <-].
      destruct (missing_config_step swarm_id c required st Hc) as (e & He & Hk & Hn).
      exists e, st. auto.
    + intros Hfind.
      destruct (present_config_step swarm_id c required st Hc) as (v & _ & ->).
      destruct (IH {| params := <[c := v]> (params st);
                      entered := entered st |} Hfind)
        as (e & st' & He & Hent & Hk & Hn).
      exists e, st'. auto.
Qed.

Lemma inject_all_present (swarm_id : SwarmID) (required : list string)
    (st : ActionState) :
  (forall k, k ∈ required -> config_missing swarm_id k = false) ->
  exists st',
    inject_required_configs required swarm_id st = (Return tt, st') /\
    entered st' = entered st.
Proof.
  revert st. induction required as [|c required IH]; intros st Hall.
  - exists st. done.
  - destruct (present_config_step swarm_id c required st) as (v & _ & ->).
    { apply Hall, list_elem_of_here. }
    destruct (IH {| params := <[c := v]> (params st); entered := entered st |})
      as (st' & He & Hent).
    { intros k Hk. apply Hall. by apply list_elem_of_further. }
    exists st'. auto.
Qed.

Lemma find_missing (swarm_id : SwarmID) (required : list string) (k : string) :
  k ∈ required -> config_missing swarm_id k = true ->
  exists k0, List.find (config_missing swarm_id) required = Some k0.
Proof.
  intros Hin Hk. destruct (List.find _ required) as [k0|] eqn:Hfind; [eauto|].
  apply list_elem_of_In in Hin.
  pose proof (List.find_none _ _ Hfind k Hin). congruence.
Qed.

(** The loop either raises or returns; it never enters an entry point. *)
Lemma inject_keeps_entered (swarm_id : SwarmID) (required : list string)
    (st : ActionState) :
  entered (snd (inject_required_configs required swarm_id st)) = entered st.
Proof.
  destruct (List.find (config_missing swarm_id) required) as [k0|] eqn:Hfind.
  - destruct (inject_first_missing swarm_id required k0 st Hfind)
      as (e & st' & -> & Hent & _). done.
  - destruct (inject_all_present swarm_id required st) as (st' & -> & Hent);
      [|done].
    intros k Hk. apply list_elem_of_In in Hk.
    apply (List.find_none _ _ Hfind k Hk).
Qed.

(** What [action] does once the metadata entry is found. *)
Lemma action_with_entry (action_id : string) (swarm_id : SwarmID)
    (st : ActionState) (metadata : gmap string ActionMetadata)
    (entry : ActionMetadata) :
  get_action_space_metadata swarm_id = Return metadata ->
  metadata !! action_id = Some entry ->
  action get_action_space_metadata import_module action_id swarm_id st =
  bind (inject_required_configs (required_configs entry) swarm_id)
    (fun _ => bind (import_main import_module None)
       (fun main_function =>
          bind (pop_param "action_type") (fun _ => call_main main_function)))
    st.
Proof.
  intros Hget Hentry. unfold action, bind at 1 2, lift, ret.
  by rewrite Hget, Hentry.
Qed.

(** C5 (as amended): when a required configuration key of the action is
    missing or [None], the resolver raises before any entry point is
    invoked, and the error message names the first required key, in the
    order of [required_configs], that is missing or [None]. *)
Theorem action_missing_config_raises (action_id : string)
    (swarm_id : SwarmID) (st : ActionState)
    (metadata : gmap string ActionMetadata) (entry : ActionMetadata)
    (k : string) :
  get_action_space_metadata swarm_id = Return metadata ->
  metadata !! action_id = Some entry ->
  k ∈ required_configs entry ->
  config_missing swarm_id k = true ->
  exists k0 e st',
    List.find (config_missing swarm_id) (required_configs entry) = Some k0 /\
    action get_action_space_metadata import_module action_id swarm_id st
      = (Raise e, st') /\
    entered st' = entered st /\
    (e = KeyError (Some ("Config " +:+ k0
                           +:+ " not found in swarm configs or value is None"))
     \/ e = AttributeError ("'" +:+ class_name (configs swarm_id)
                              +:+ "' object has no attribute '"
                              +:+ k0 +:+ "'")) /\
    contains k0 (exn_str e) = true.
Proof.
  intros Hget Hentry Hin Hk.
  destruct (find_missing swarm_id _ k Hin Hk) as [k0 Hfind].
  destruct (inject_first_missing swarm_id _ k0 st Hfind)
    as (e & st' & Hrun & Hent & He & Hn).
  exists k0, e, st'. split; [done|]. split; [|done].
  rewrite (action_with_entry _ _ _ _ _ Hget Hentry). unfold bind at 1.
  by rewrite Hrun.
Qed.

(** C6 (as amended): when lines 28-35 run with [action_type] bound and
    the imported module has no [main], they raise [AttributeError] with
    the fixed message "No main function found in the script"; no entry
    point is invoked. *)
Theorem import_main_without_main (action_type : string) (st : ActionState)
    (module : PyModule) :
  import_module (module_path action_type) = Return module ->
  main module = None ->
  import_main import_module (Some action_type) st
    = (Raise (AttributeError "No main function found in the script"), st).
Proof.
  intros Himport Hmain. unfold import_main, bind, ret, lift, raise.
  by rewrite Himport, Hmain.
Qed.

(** [action] always raises, and never enters an entry point. *)
Lemma action_raises (action_id : string) (swarm_id : SwarmID)
    (st : ActionState) :
  exists e st',
    action get_action_space_metadata import_module action_id swarm_id st
      = (Raise e, st') /\
    entered st' = entered st.
Proof.
  unfold action, bind at 1, lift.
  destruct (get_action_space_metadata swarm_id) as [metadata|e]; [|eauto].
  unfold bind at 1.
  destruct (metadata !! action_id) as [entry|]; unfold ret, raise; [|eauto].
  unfold bind at 1.
  pose proof (inject_keeps_entered swarm_id (required_configs entry) st) as Hent.
  destruct (inject_required_configs (required_configs entry) swarm_id st)
    as [[[]|e] st']; [|eauto].
  unfold bind, import_main, raise. eauto.
Qed.

(** C10: when the metadata entry is found and every required key has a
    value, the resolver raises [UnboundLocalError] for [action_type]; and
    whatever its arguments, it raises without having invoked an entry
    point. *)
Theorem action_unbound_action_type (action_id : string)
    (swarm_id : SwarmID) (st : ActionState)
    (metadata : gmap string ActionMetadata) (entry : ActionMetadata) :
  get_action_space_metadata swarm_id = Return metadata ->
  metadata !! action_id = Some entry ->
  (forall k, k ∈ required_configs entry -> config_missing swarm_id k = false) ->
  (exists st',
     action get_action_space_metadata import_module action_id swarm_id st
       = (Raise (UnboundLocalError "action_type"), st') /\
     entered st' = entered st) /\
  (forall action_id' swarm_id' st0,
     exists e st',
       action get_action_space_metadata import_module action_id' swarm_id' st0
         = (Raise e, st') /\
       entered st' = entered st0).
Proof.
  intros Hget Hentry Hall. split.
  - destruct (inject_all_present swarm_id _ st Hall) as (st' & Hrun & Hent).
    exists st'. split; [|done].
    rewrite (action_with_entry _ _ _ _ _ Hget Hentry). unfold bind at 1.
    by rewrite Hrun.
  - intros. apply action_raises.
Qed.

End ResolverFacts.

(** ** Constructing termination operations *)

Section ValidationFacts.
Import SwarmOperations.

Variable generate_uuid : string -> string.

(** An operation that validation lets through carries both node ids, as
    the strings the caller passed. *)
Lemma TerminationOperation_init_carries_both (kwargs : gmap string pyval)
    (op : SwarmOperation) :
  TerminationOperation_init generate_uuid kwargs = Return op ->
  exists terminator target context,
    fields op = TerminationFields terminator target context /\
    kwargs !! "terminator_node_id" = Some (VStr terminator) /\
    kwargs !! "target_node_id" = Some (VStr target) /\
    operation_type op = "terminate".
Proof.
  unfold TerminationOperation_init, optional_str_or, literal_or_default,
    required_str, dict_or_None.
  intros H.
  destruct (kwargs !! "terminator_node_id") as [[]|];
    destruct (kwargs !! "target_node_id") as [[]|];
    destruct (kwargs !! "id") as [[]|];
    destruct (kwargs !! "context") as [[]|];
    destruct (kwargs !! "operation_type") as [[| | |ty| |]|];
    try destruct (String.eqb ty "terminate") eqn:Hty;
    try discriminate H; injection H as <-; cbn;
    try apply String.eqb_eq in Hty; subst; eauto 10.
Qed.

(** Without [target_node_id], construction is rejected and the error
    lists the field as missing. *)
Lemma TerminationOperation_init_requires_target (kwargs : gmap string pyval) :
  kwargs !! "target_node_id" = None ->
  exists missing invalid,
    TerminationOperation_init generate_uuid kwargs
      = Raise (ValidationError "TerminationOperation" missing invalid) /\
    "target_node_id" ∈ missing.
Proof.
  unfold TerminationOperation_init, required_str. intros ->.
  destruct (optional_str_or _ _ _), (literal_or_default _ _ _),
    (match kwargs !! "terminator_node_id" with
     | Some (VStr s) => Valid s | Some _ => Invalid | None => Missing end),
    (dict_or_None _ _);
    eexists _, _; (split; [reflexivity|]); cbn;
    repeat (first [apply list_elem_of_here | apply list_elem_of_further]).
Qed.

End ValidationFacts.


(** ** The sqlite key-value script *)

Section SqliteFacts.
Import CreateSqlite3Db.

(** A key the table holds is returned: the text, or [None] for NULL. *)
Lemma retrieve_stored (fs : gmap string Database) (path key : string)
    (value : option string) :
  stored fs path key = Some value ->
  retrieve_value_from_sqlite3 path key fs
    = (Return match value with Some text => VStr text | None => VNone end, fs).
Proof.
  unfold stored, retrieve_value_from_sqlite3, try_except, bind, connect,
    execute_select, ret, lift.
  destruct (fs !! path) as [db|] eqn:Hdb; [|discriminate]. rewrite Hdb.
  destruct (kv_store db) as [table|]; [|discriminate].
  intros ->. by destruct value.
Qed.

(** C8 (as amended): for a key the store does not hold, the retrieval
    raises [ValueError] with the script's message; it does not return
    [None]. *)
Theorem retrieve_absent_key_raises (fs : gmap string Database)
    (path key : string) :
  stored fs path key = None ->
  exists reason fs',
    retrieve_value_from_sqlite3 path key fs
      = (Raise (ValueError ("Failed to retrieve value from SQLite3: "
                              +:+ reason)), fs') /\
    (reason = "'NoneType' object is not subscriptable"
     \/ reason = "no such table: kv_store").
Proof.
  unfold stored, retrieve_value_from_sqlite3, try_except, bind, connect,
    execute_select, ret, lift.
  destruct (fs !! path) as [db|] eqn:Hdb.
  - rewrite Hdb. destruct (kv_store db) as [table|].
    + intros ->. eexists _, _. split; [reflexivity|]. by left.
    + intros _. eexists _, _. split; [reflexivity|]. by right.
  - intros _. rewrite lookup_insert_eq. cbn.
    eexists _, _. split; [reflexivity|]. by right.
Qed.

End SqliteFacts.

(** C1 (as stated) fails: a registered handler that returns [None] makes
    the dispatcher return [None], which is not the empty list. *)
Lemma execute_none_is_not_empty_list :
  let returns_none : @Core.handler unit unit :=
    fun _ _ w => (Return Core.PyNone, w) in
  let op :=
    {| SwarmOperations.id := Some "spawn_op_1";
       SwarmOperations.operation_type := "spawn";
       SwarmOperations.fields :=
         SwarmOperations.SpawnFields
           {| SwarmOperations.action_id := "swarmstar/actions/reasoning/decompose_directive";
              SwarmOperations.message := "go" |} None None None |} in
  let st := {| Core.world := tt; Core.invoked := [] |} in
  let result :=
    fst (Core.execute_swarmstar_operation
           returns_none returns_none returns_none returns_none tt op st) in
  Core.operation_mapping returns_none returns_none returns_none returns_none
    !! SwarmOperations.operation_type op = Some returns_none /\
  result = Return Core.PyNone /\
  result <> Return (Core.PyList []).
Proof.
  cbv zeta. split; [reflexivity|]. split; [reflexivity|].
  vm_compute. discriminate.
Qed.

(** A spawn handler that returns a pair of operations. *)
Lemma execute_normalizes_output_witness :
  Core.execute_swarmstar_operation
      (DispatchExamples.counting
         (Core.PyTuple [Core.PyOp DispatchExamples.terminate_op;
                        Core.PyOp DispatchExamples.spawn_op]))
      (DispatchExamples.counting Core.PyNone) (DispatchExamples.counting Core.PyNone)
      (DispatchExamples.counting Core.PyNone)
      tt DispatchExamples.spawn_op DispatchExamples.st0 =
    (Return (Core.PyList [Core.PyOp DispatchExamples.terminate_op;
                          Core.PyOp DispatchExamples.spawn_op]),
     {| Core.world := 1;
        Core.invoked := [("spawn", DispatchExamples.spawn_op)] |}).
Proof.
  apply (execute_normalizes_output _ _ _ _ tt DispatchExamples.spawn_op DispatchExamples.st0
           (DispatchExamples.counting
              (Core.PyTuple [Core.PyOp DispatchExamples.terminate_op;
                             Core.PyOp DispatchExamples.spawn_op]))
           (Core.PyTuple [Core.PyOp DispatchExamples.terminate_op;
                          Core.PyOp DispatchExamples.spawn_op]) 1);
    reflexivity.
Defined.

(** A user-communication operation reaches no handler. *)
Lemma execute_unknown_operation_type_witness :
  Core.execute_swarmstar_operation
      (DispatchExamples.counting Core.PyNone) (DispatchExamples.counting Core.PyNone)
      (DispatchExamples.counting Core.PyNone) (DispatchExamples.counting Core.PyNone)
      tt DispatchExamples.user_communication_op DispatchExamples.st0 =
    (Raise (ValueError "Unknown swarm operation type: user_communication"),
     DispatchExamples.st0).
Proof.
  apply (execute_unknown_operation_type _ _ _ _ tt
           DispatchExamples.user_communication_op DispatchExamples.st0).
  apply not_elem_of_dom. reflexivity.
Defined.

(** The same operation, as a well-formed member of the declared types. *)
Lemma execute_rejects_declared_types_witness :
  dom (Core.operation_mapping
         (DispatchExamples.counting Core.PyNone) (DispatchExamples.counting Core.PyNone)
         (DispatchExamples.counting Core.PyNone) (DispatchExamples.counting Core.PyNone))
    = {["spawn"; "blocking"; "terminate"; "node_failure"]} /\
  SwarmOperations.operation_type DispatchExamples.user_communication_op
    ∈ SwarmOperations.operation_type_literal /\
  Core.execute_swarmstar_operation
      (DispatchExamples.counting Core.PyNone) (DispatchExamples.counting Core.PyNone)
      (DispatchExamples.counting Core.PyNone) (DispatchExamples.counting Core.PyNone)
      tt DispatchExamples.user_communication_op DispatchExamples.st0 =
    (Raise (ValueError "Unknown swarm operation type: user_communication"),
     DispatchExamples.st0).
Proof.
  apply (execute_rejects_declared_types
           (DispatchExamples.counting Core.PyNone) (DispatchExamples.counting Core.PyNone)
           (DispatchExamples.counting Core.PyNone) (DispatchExamples.counting Core.PyNone)
           tt DispatchExamples.user_communication_op DispatchExamples.st0).
  - unfold SwarmOperations.well_formed. simpl. apply list_elem_of_here.
  - left. reflexivity.
Defined.

(** A clone of the four-node tree into an empty instance store. *)
Lemma portal_clone_copies_portals_witness :
  MetadataTree.portal_clone CloneExamples.get_shared CloneExamples.append_insert
      "action_space" 3 "swarm_1" CloneExamples.empty_instance
  = (Return tt,
     {| MetadataTree.instance_store :=
          [("swarm_1_actions", CloneExamples.actions_node);
           ("swarm_1_memory", CloneExamples.memory_node)];
        MetadataTree.calls :=
          [MetadataTree.Get "action_space" "root";
           MetadataTree.Get "action_space" "actions";
           MetadataTree.Insert "action_space" "swarm_1_actions"
             CloneExamples.actions_node;
           MetadataTree.Get "action_space" "decompose_directive";
           MetadataTree.Get "action_space" "memory";
           MetadataTree.Insert "action_space" "swarm_1_memory"
             CloneExamples.memory_node] |}).
Proof.
  destruct (portal_clone_copies_portals CloneExamples.get_shared
              CloneExamples.append_insert "action_space" 3 "swarm_1"
              CloneExamples.shared_tree CloneExamples.empty_instance)
    as (_ & _ & _ & _ & Hrun).
  - simpl. repeat split.
  - reflexivity.
  - simpl. lia.
  - rewrite Hrun; [reflexivity|]. intros coll k r db. reflexivity.
Defined.


(** The second required key is absent from the configuration. *)
Lemma action_missing_config_raises_witness :
  exists k0 e st',
    List.find (Action.config_missing ActionExamples.swarm_half_configured)
      ["openai_key"; "azure_key"] = Some k0 /\
    Action.action ActionExamples.get_metadata ActionExamples.import_with_main
        ActionExamples.rename_file_id ActionExamples.swarm_half_configured
        ActionExamples.st0 = (Raise e, st') /\
    Action.entered st' = [] /\
    (e = KeyError (Some ("Config " +:+ k0
                           +:+ " not found in swarm configs or value is None"))
     \/ e = AttributeError ("'" +:+ "Configs"
                              +:+ "' object has no attribute '"
                              +:+ k0 +:+ "'")) /\
    contains k0 (exn_str e) = true.
Proof.
  apply (action_missing_config_raises ActionExamples.get_metadata
           ActionExamples.import_with_main ActionExamples.rename_file_id
           ActionExamples.swarm_half_configured ActionExamples.st0
           ActionExamples.metadata
           {| Action.required_configs := ["openai_key"; "azure_key"] |}
           "azure_key").
  - reflexivity.
  - reflexivity.
  - apply list_elem_of_further, list_elem_of_here.
  - reflexivity.
Defined.

(** C5 (as stated) fails: with two required keys both [None], the error
    names the first and not the second. *)
Lemma action_error_names_only_first_key :
  "azure_key" ∈ Action.required_configs
                  {| Action.required_configs := ["openai_key"; "azure_key"] |} /\
  ActionExamples.metadata !! ActionExamples.rename_file_id
    = Some {| Action.required_configs := ["openai_key"; "azure_key"] |} /\
  Action.config_missing ActionExamples.swarm_unconfigured "azure_key" = true /\
  Action.action ActionExamples.get_metadata ActionExamples.import_with_main
      ActionExamples.rename_file_id ActionExamples.swarm_unconfigured
      ActionExamples.st0
    = (Raise (KeyError (Some
         "Config openai_key not found in swarm configs or value is None")),
       ActionExamples.st0) /\
  contains "azure_key"
    (exn_str (KeyError (Some
       "Config openai_key not found in swarm configs or value is None")))
    = false.
Proof.
  split; [apply list_elem_of_further, list_elem_of_here|].
  repeat split; reflexivity.
Qed.

(** The lookup with [action_type] bound to the script path. *)
Lemma import_main_without_main_witness :
  Action.import_main ActionExamples.import_without_main
      (Some ActionExamples.rename_file_id) ActionExamples.st0
    = (Raise (AttributeError "No main function found in the script"),
       ActionExamples.st0).
Proof.
  apply (import_main_without_main ActionExamples.import_without_main
           ActionExamples.rename_file_id ActionExamples.st0
           {| Action.main := None |}); reflexivity.
Defined.

(** C6 (as stated) fails: for an action whose module has no [main], the
    resolver raises [UnboundLocalError]; and the error line 35 would
    raise, were it reached, has a fixed message.  Neither names the
    action id. *)
Lemma action_error_does_not_name_action :
  Action.action ActionExamples.get_metadata ActionExamples.import_without_main
      ActionExamples.rename_file_id ActionExamples.swarm_configured
      ActionExamples.st0
    = (Raise (UnboundLocalError "action_type"),
       {| Action.params :=
            <["azure_key" := VStr "az-1"]>
              (<["openai_key" := VStr "sk-1"]>
                 (Action.params ActionExamples.st0));
          Action.entered := [] |}) /\
  contains ActionExamples.rename_file_id
    (exn_str (UnboundLocalError "action_type")) = false /\
  Action.import_main ActionExamples.import_without_main
      (Some ActionExamples.rename_file_id) ActionExamples.st0
    = (Raise (AttributeError "No main function found in the script"),
       ActionExamples.st0) /\
  contains ActionExamples.rename_file_id
    (exn_str (AttributeError "No main function found in the script")) = false.
Proof. repeat split; reflexivity. Qed.

(** Both required keys configured, and a module with a [main]. *)
Lemma action_unbound_action_type_witness :
  (exists st',
     Action.action ActionExamples.get_metadata ActionExamples.import_with_main
         ActionExamples.rename_file_id ActionExamples.swarm_configured
         ActionExamples.st0
       = (Raise (UnboundLocalError "action_type"), st') /\
     Action.entered st' = []) /\
  (forall action_id' swarm_id' st0,
     exists e st',
       Action.action ActionExamples.get_metadata ActionExamples.import_with_main
           action_id' swarm_id' st0 = (Raise e, st') /\
       Action.entered st' = Action.entered st0).
Proof.
  apply (action_unbound_action_type ActionExamples.get_metadata
           ActionExamples.import_with_main ActionExamples.rename_file_id
           ActionExamples.swarm_configured ActionExamples.st0
           ActionExamples.metadata
           {| Action.required_configs := ["openai_key"; "azure_key"] |}).
  - reflexivity.
  - reflexivity.
  - intros k Hk.
    apply elem_of_cons in Hk as [-> | Hk]; [reflexivity|].
    apply elem_of_cons in Hk as [-> | Hk]; [reflexivity|].
    by apply elem_of_nil in Hk.
Defined.

(** C8 (as stated) fails: asking the store the script built for a key it
    does not hold raises [ValueError] instead of returning [None]. *)
Lemma retrieve_absent_key_is_not_None :
  CreateSqlite3Db.stored SqliteExamples.fs1 SqliteExamples.db_path
    "action_space_swarm_star/actions/memory" = None /\
  CreateSqlite3Db.retrieve_value_from_sqlite3 SqliteExamples.db_path
      "action_space_swarm_star/actions/memory" SqliteExamples.fs1
    = (Raise (ValueError
         "Failed to retrieve value from SQLite3: 'NoneType' object is not subscriptable"),
       SqliteExamples.fs1) /\
  fst (CreateSqlite3Db.retrieve_value_from_sqlite3 SqliteExamples.db_path
         "action_space_swarm_star/actions/memory" SqliteExamples.fs1)
    <> Return VNone.
Proof.
  split; [reflexivity|]. split; [reflexivity|]. vm_compute. discriminate.
Qed.

(** A key the script did not store. *)
Lemma retrieve_absent_key_raises_witness :
  exists reason fs',
    CreateSqlite3Db.retrieve_value_from_sqlite3 SqliteExamples.db_path
        "action_space_swarm_star/actions/memory" SqliteExamples.fs1
      = (Raise (ValueError ("Failed to retrieve value from SQLite3: "
                              +:+ reason)), fs') /\
    (reason = "'NoneType' object is not subscriptable"
     \/ reason = "no such table: kv_store").
Proof.
  apply (retrieve_absent_key_raises SqliteExamples.fs1 SqliteExamples.db_path
           "action_space_swarm_star/actions/memory").
  reflexivity.
Defined.

(** ** Further evaluations *)

Example module_path_of_script :
  Action.module_path ActionExamples.rename_file_id
  = "aga_swarm.actions.data.file_operations.rename_file.mac_rename_file".
Proof. reflexivity. Qed.

Example retrieve_stored_key :
  CreateSqlite3Db.retrieve_value_from_sqlite3 SqliteExamples.db_path
      "action_space_swarm_star/actions/reasoning" SqliteExamples.fs1
  = (Return (VStr "{}"), SqliteExamples.fs1).
Proof. reflexivity. Qed.

Example retrieve_without_table :
  fst (CreateSqlite3Db.retrieve_value_from_sqlite3 "fresh.sqlite3" "k" ∅)
  = Raise (ValueError
      "Failed to retrieve value from SQLite3: no such table: kv_store").
Proof. reflexivity. Qed.

(** On a store that refuses duplicate keys the second clone stops at its
    first insert. *)
Example second_clone_on_unique_store :
  let first :=
    MetadataTree.portal_clone CloneExamples.get_shared
      CloneExamples.unique_insert "action_space" 3 "swarm_1"
      {| MetadataTree.instance_store := ∅; MetadataTree.calls := [] |} in
  let second :=
    MetadataTree.portal_clone CloneExamples.get_shared
      CloneExamples.unique_insert "action_space" 3 "swarm_1"
      {| MetadataTree.instance_store := MetadataTree.instance_store (snd first);
         MetadataTree.calls := [] |} in
  fst first = Return tt /\
  fst second = Raise (ValueError "Duplicate key swarm_1_actions") /\
  MetadataTree.calls (snd second)
  = [MetadataTree.Get "action_space" "root";
     MetadataTree.Get "action_space" "actions";
     MetadataTree.Insert "action_space" "swarm_1_actions"
       CloneExamples.actions_node].
Proof. repeat split; reflexivity. Qed.

(** Too deep a tree for the frames available. *)
Example clone_out_of_frames :
  fst (MetadataTree.portal_clone CloneExamples.get_shared
         CloneExamples.append_insert "action_space" 2 "swarm_1"
         CloneExamples.empty_instance)
  = Raise RecursionError.
Proof. reflexivity. Qed.

Example construct_with_both_ids :
  SwarmOperations.TerminationOperation_init (fun prefix => prefix +:+ "_1")
    (<["terminator_node_id" := VStr "node_1"]>
       (<["target_node_id" := VStr "node_2"]> ∅))
  = Return DispatchExamples.terminate_op.
Proof. reflexivity. Qed.

(** ** The sqlite key-value script: loading, reading back, running twice *)

Section SqliteStoreFacts.
Import CreateSqlite3Db Sqlite3Script.

Lemma stored_connect (path : string) (fs : gmap string Database)
    (p k : string) :
  stored (snd (connect path fs)) p k = stored fs p k.
Proof.
  unfold connect, stored. cbn [snd].
  destruct (fs !! path) as [db|] eqn:Hdb; [done|].
  destruct (decide (path = p)) as [<-|Hne].
  - by rewrite lookup_insert_eq, Hdb.
  - by rewrite lookup_insert_ne.
Qed.

Lemma create_or_open_result (path : string) (fs : gmap string Database) :
  create_or_open_kv_db path fs =
  (Return tt,
   match fs !! path with
   | Some db =>
       match kv_store db with
       | Some _ => fs
       | None => <[path := {| kv_store := Some ∅ |}]> fs
       end
   | None => <[path := {| kv_store := Some ∅ |}]> fs
   end).
Proof.
  unfold create_or_open_kv_db, try_except, bind, connect, execute_create.
  destruct (fs !! path) as [db|] eqn:Hdb.
  - rewrite Hdb. by destruct (kv_store db).
  - rewrite lookup_insert_eq. cbn. by rewrite insert_insert_eq.
Qed.

Lemma retrieve_result (path key : string) (fs : gmap string Database) :
  retrieve_value_from_sqlite3 path key fs =
  (match stored fs path key with
   | Some value => Return (as_python value)
   | None =>
       Raise (ValueError ("Failed to retrieve value from SQLite3: " +:+
          match fs !! path with
          | Some db =>
              match kv_store db with
              | Some _ => "'NoneType' object is not subscriptable"
              | None => "no such table: kv_store"
              end
          | None => "no such table: kv_store"
          end))
   end,
   snd (connect path fs)).
Proof.
  unfold stored, retrieve_value_from_sqlite3, try_except, bind, connect,
    execute_select, ret, lift.
  destruct (fs !! path) as [db|] eqn:Hdb.
  - rewrite Hdb. destruct (kv_store db) as [table|]; [|done].
    destruct (table !! key) as [[text|]|]; reflexivity.
  - rewrite lookup_insert_eq. reflexivity.
Qed.

(** The loop of [move_json_to_sqlite3] on fresh keys. *)
Lemma insert_loop (path : string) (data : list (string * string)) :
  forall (fs : gmap string Database) (table : gmap string (option string)),
    fs !! path = Some {| kv_store := Some table |} ->
    NoDup (map fst data) ->
    (forall k, k ∈ map fst data -> table !! k = None) ->
    for_each data (fun kv => execute_insert path (fst kv) (snd kv)) fs =
    (Return tt,
     <[path := {| kv_store :=
                    Some (foldl (fun t kv => <[fst kv := Some (snd kv)]> t)
                            table data) |}]> fs).
Proof.
  induction data as [|[k v] data IH]; intros fs table Hfs Hnd Hfresh.
  - cbn. unfold ret. by rewrite insert_id.
  - cbn [for_each map fst snd foldl] in *. apply NoDup_cons in Hnd as [Hk Hnd].
    unfold bind, execute_insert at 1. cbn [fst snd]. rewrite Hfs. cbn [kv_store].
    rewrite (Hfresh k) by apply list_elem_of_here.
    rewrite (IH _ (<[k := Some v]> table)).
    + by rewrite insert_insert_eq.
    + by rewrite lookup_insert_eq.
    + done.
    + intros k' Hk'. rewrite lookup_insert_ne by (intros ->; done).
      apply Hfresh. by apply list_elem_of_further.
Qed.

Lemma foldl_insert_lookup (data : list (string * string)) :
  forall (table : gmap string (option string)) (k : string),
    NoDup (map fst data) ->
    foldl (fun t kv => <[fst kv := Some (snd kv)]> t) table data !! k =
    match List.find (fun kv => String.eqb (fst kv) k) data with
    | Some kv => Some (Some (snd kv))
    | None => table !! k
    end.
Proof.
  induction data as [|[k0 v0] data IH]; intros table k Hnd; [done|].
  cbn [foldl List.find map fst snd] in *. apply NoDup_cons in Hnd as [Hk0 Hnd].
  rewrite (IH _ _ Hnd).
  destruct (String.eqb k0 k) eqn:Hk.
  - apply String.eqb_eq in Hk as <-.
    destruct (List.find _ data) as [[k1 v1]|] eqn:Hfind.
    + apply List.find_some in Hfind as [Hin Heq]. cbn in Heq.
      apply String.eqb_eq in Heq as ->. exfalso. apply Hk0.
      apply list_elem_of_fmap. exists (k0, v1). split; [done|].
      by apply list_elem_of_In.
    + by rewrite lookup_insert_eq.
  - apply String.eqb_neq in Hk.
    destruct (List.find _ data); [done|]. by rewrite lookup_insert_ne.
Qed.

Lemma find_key_of_member (data : list (string * string)) (k v : string) :
  NoDup (map fst data) -> (k, v) ∈ data ->
  List.find (fun kv => String.eqb (fst kv) k) data = Some (k, v).
Proof.
  induction data as [|[k0 v0] data IH]; intros Hnd Hin.
  - by apply elem_of_nil in Hin.
  - cbn [List.find map fst] in *. apply NoDup_cons in Hnd as [Hk0 Hnd].
    apply elem_of_cons in Hin as [[= <- <-]|Hin].
    + by rewrite String.eqb_refl.
    + destruct (String.eqb k0 k) eqn:Hk; [|by apply IH].
      apply String.eqb_eq in Hk as ->. exfalso. apply Hk0.
      apply list_elem_of_fmap. by exists (k, v).
Qed.

Lemma find_key_none (data : list (string * string)) (k : string) :
  k ∉ map fst data ->
  List.find (fun kv => String.eqb (fst kv) k) data = None.
Proof.
  intros Hk. destruct (List.find _ data) as [[k1 v1]|] eqn:Hfind; [|done].
  apply List.find_some in Hfind as [Hin Heq]. cbn in Heq.
  apply String.eqb_eq in Heq as ->. exfalso. apply Hk.
  apply list_elem_of_fmap. exists (k, v1). split; [done|].
  by apply list_elem_of_In.
Qed.

(** Creating the table and loading fresh keys: the store afterwards. *)
Lemma load_fresh_keys (fs : gmap string Database) (path : string)
    (data : list (string * string)) :
  NoDup (map fst data) ->
  (forall k, k ∈ map fst data -> stored fs path k = None) ->
  exists fs1 fs2,
    create_or_open_kv_db path fs = (Return tt, fs1) /\
    move_json_to_sqlite3 data path fs1 = (Return tt, fs2) /\
    (exists table, fs2 !! path = Some {| kv_store := Some table |}) /\
    (forall k v, (k, v) ∈ data -> stored fs2 path k = Some (Some v)) /\
    (forall k, k ∉ map fst data -> stored fs2 path k = stored fs path k).
Proof.
  intros Hnd Hfresh. rewrite create_or_open_result.
  set (fs1 := match fs !! path with
              | Some db => match kv_store db with
                           | Some _ => fs
                           | None => <[path := {| kv_store := Some ∅ |}]> fs
                           end
              | None => <[path := {| kv_store := Some ∅ |}]> fs
              end).
  assert (Htable : exists table,
    fs1 !! path = Some {| kv_store := Some table |} /\
    (forall k, table !! k = stored fs path k)).
  { unfold fs1, stored. destruct (fs !! path) as [[[table|]]|] eqn:Hdb; cbn.
    - exists table. by rewrite Hdb.
    - exists ∅. by rewrite lookup_insert_eq.
    - exists ∅. by rewrite lookup_insert_eq. }
  destruct Htable as (table & Hfs1 & Htable).
  eexists fs1, _. split; [reflexivity|].
  assert (Hmove : move_json_to_sqlite3 data path fs1 =
    (Return tt,
     <[path := {| kv_store :=
          Some (foldl (fun t kv => <[fst kv := Some (snd kv)]> t)
                  table data) |}]> fs1)).
  { unfold move_json_to_sqlite3, connect. rewrite Hfs1.
    rewrite (insert_loop path data fs1 table Hfs1 Hnd); [done|].
    intros k Hk. rewrite Htable. by apply Hfresh. }
  split; [exact Hmove|]. split; [|split].
  - eexists. by rewrite lookup_insert_eq.
  - intros k v Hin. unfold stored.
    rewrite lookup_insert_eq. cbn [kv_store].
    by rewrite (foldl_insert_lookup _ _ _ Hnd), (find_key_of_member _ _ _ Hnd Hin).
  - intros k Hk. unfold stored at 1. rewrite lookup_insert_eq. cbn [kv_store].
    rewrite (foldl_insert_lookup _ _ _ Hnd), (find_key_none _ _ Hk).
    apply Htable.
Qed.

(** X1: creating the table and loading a JSON object whose keys the store
    does not hold yet succeeds; afterwards every key reads back as the
    text stored for it, and what the store held under other keys is as it
    was. *)
Theorem load_then_retrieve (fs : gmap string Database) (path : string)
    (data : list (string * string)) :
  NoDup (map fst data) ->
  (forall k, k ∈ map fst data -> stored fs path k = None) ->
  exists fs1 fs2,
    create_or_open_kv_db path fs = (Return tt, fs1) /\
    move_json_to_sqlite3 data path fs1 = (Return tt, fs2) /\
    (forall k v, (k, v) ∈ data ->
       retrieve_value_from_sqlite3 path k fs2 = (Return (VStr v), fs2)) /\
    (forall k, k ∉ map fst data -> stored fs2 path k = stored fs path k).
Proof.
  intros Hnd Hfresh.
  destruct (load_fresh_keys fs path data Hnd Hfresh)
    as (fs1 & fs2 & Hcreate & Hmove & [table Htable] & Hkeys & Hother).
  exists fs1, fs2. split; [done|]. split; [done|]. split; [|done].
  intros k v Hin. rewrite retrieve_result, (Hkeys k v Hin).
  unfold connect. by rewrite Htable.
Qed.

(** The loop on a table that already holds one of the keys. *)
Lemma insert_loop_conflict (path : string) (data : list (string * string))
    (k : string) :
  k ∈ map fst data ->
  forall (fs : gmap string Database) (table : gmap string (option string)),
    fs !! path = Some {| kv_store := Some table |} ->
    is_Some (table !! k) ->
    exists fs',
      for_each data (fun kv => execute_insert path (fst kv) (snd kv)) fs =
      (Raise (IntegrityError "UNIQUE constraint failed: kv_store.key"), fs').
Proof.
  induction data as [|[k0 v0] data IH]; intros Hin fs table Hfs Hk.
  - by apply elem_of_nil in Hin.
  - cbn [for_each map fst snd] in *.
    unfold bind, execute_insert at 1. cbn [fst snd]. rewrite Hfs. cbn [kv_store].
    destruct (table !! k0) as [old|] eqn:Hk0; [eauto|].
    apply elem_of_cons in Hin as [->|Hin].
    { rewrite Hk0 in Hk. by destruct Hk. }
    destruct (IH Hin (<[path := {| kv_store := Some (<[k0 := Some v0]> table) |}]> fs)
                (<[k0 := Some v0]> table)) as [fs' Hrun].
    + by rewrite lookup_insert_eq.
    + rewrite lookup_insert_ne; [done|]. intros ->. rewrite Hk0 in Hk.
      by destruct Hk.
    + rewrite Hrun. eauto.
Qed.

Lemma move_json_conflict (fs : gmap string Database) (path : string)
    (data : list (string * string)) (k : string) :
  k ∈ map fst data ->
  is_Some (stored fs path k) ->
  move_json_to_sqlite3 data path fs =
  (Raise (IntegrityError "UNIQUE constraint failed: kv_store.key"), fs).
Proof.
  intros Hin Hk. unfold stored in Hk. unfold move_json_to_sqlite3, connect.
  destruct (fs !! path) as [[[table|]]|] eqn:Hfs;
    try (by destruct Hk as [? [=]]).
  destruct (insert_loop_conflict path data k Hin fs table Hfs Hk) as [fs' ->].
  reflexivity.
Qed.

(** X2: loading a JSON object one of whose keys the store already holds
    raises the UNIQUE-constraint error and leaves the store exactly as it
    was, also for the keys that came before the clash. *)
Theorem move_json_existing_key (fs : gmap string Database) (path : string)
    (data : list (string * string)) (k : string) :
  k ∈ map fst data ->
  is_Some (stored fs path k) ->
  move_json_to_sqlite3 data path fs =
    (Raise (IntegrityError "UNIQUE constraint failed: kv_store.key"), fs) /\
  (forall p key, stored (snd (move_json_to_sqlite3 data path fs)) p key
                 = stored fs p key).
Proof.
  intros Hin Hk. rewrite (move_json_conflict fs path data k Hin Hk). done.
Qed.

(** X3: without the [kv_store] table, loading an empty JSON object
    returns and loading any other raises "no such table"; either way
    nothing is stored. *)
Theorem move_json_without_table (fs : gmap string Database) (path : string)
    (data : list (string * string)) :
  (forall db, fs !! path = Some db -> kv_store db = None) ->
  fst (move_json_to_sqlite3 data path fs) =
    match data with
    | [] => Return tt
    | _ :: _ => Raise (OperationalError "no such table: kv_store")
    end /\
  (forall p key, stored (snd (move_json_to_sqlite3 data path fs)) p key
                 = stored fs p key).
Proof.
  intros Hno.
  assert (Hdb : snd (connect path fs) !! path = Some {| kv_store := None |}).
  { unfold connect. cbn [snd]. destruct (fs !! path) as [[t]|] eqn:Hfs.
    - rewrite Hfs. f_equal. specialize (Hno _ eq_refl). cbn in Hno. by subst.
    - by rewrite lookup_insert_eq. }
  assert (Hrun : move_json_to_sqlite3 data path fs =
    (match data with
     | [] => Return tt
     | _ :: _ => Raise (OperationalError "no such table: kv_store")
     end, snd (connect path fs))).
  { unfold move_json_to_sqlite3.
    destruct (connect path fs) as [r fs1] eqn:Hc. cbn [snd] in Hdb.
    assert (r = Return path) as -> by (unfold connect in Hc; by inversion Hc).
    destruct data as [|[k v] data]; [done|].
    cbn [for_each]. unfold bind, execute_insert at 1. by rewrite Hdb. }
  rewrite Hrun. cbn [fst snd]. split; [done|].
  intros p key. by rewrite stored_connect.
Qed.

(** X4: creating the table keeps every stored value, leaves a table
    behind, and changes nothing when called again. *)
Theorem create_or_open_keeps_rows (fs : gmap string Database) (path : string) :
  exists fs1,
    create_or_open_kv_db path fs = (Return tt, fs1) /\
    (forall p key, stored fs1 p key = stored fs p key) /\
    (exists table, fs1 !! path = Some {| kv_store := Some table |}) /\
    create_or_open_kv_db path fs1 = (Return tt, fs1).
Proof.
  rewrite create_or_open_result. eexists. split; [reflexivity|].
  destruct (fs !! path) as [[[table|]]|] eqn:Hfs; cbn [kv_store].
  - split; [done|]. split; [eauto|].
    rewrite create_or_open_result. by rewrite Hfs.
  - split; [|split].
    + intros p key. unfold stored.
      destruct (decide (path = p)) as [<-|Hne].
      * by rewrite lookup_insert_eq, Hfs.
      * by rewrite lookup_insert_ne.
    + exists ∅. by rewrite lookup_insert_eq.
    + rewrite create_or_open_result. by rewrite lookup_insert_eq.
  - split; [|split].
    + intros p key. unfold stored.
      destruct (decide (path = p)) as [<-|Hne].
      * by rewrite lookup_insert_eq, Hfs.
      * by rewrite lookup_insert_ne.
    + exists ∅. by rewrite lookup_insert_eq.
    + rewrite create_or_open_result. by rewrite lookup_insert_eq.
Qed.

(** X5: a retrieval returns exactly when the key is stored: the text, or
    [None] for a NULL value; so a returned [None] never means that the
    key is absent.  Whatever it does, the stored values are unchanged. *)
Theorem retrieve_returns_iff_stored (fs : gmap string Database)
    (path key : string) (v : pyval) :
  (fst (retrieve_value_from_sqlite3 path key fs) = Return v <->
   exists value, stored fs path key = Some value /\ v = as_python value) /\
  (forall p k,
     stored (snd (retrieve_value_from_sqlite3 path key fs)) p k
     = stored fs p k).
Proof.
  rewrite retrieve_result. cbn [fst snd]. split.
  - destruct (stored fs path key) as [value|]; split.
    + intros [= <-]. eauto.
    + intros (value' & [= <-] & ->). done.
    + discriminate.
    + intros (value' & [=] & _).
  - intros p k. apply stored_connect.
Qed.

(** X6: run on a store that holds none of the object's keys, the script
    succeeds; run once more with the same non-empty object, it raises the
    UNIQUE-constraint error and the store stays as the first run left
    it. *)
Theorem run_script_twice (fs : gmap string Database)
    (data : list (string * string)) :
  NoDup (map fst data) ->
  data <> [] ->
  (forall k, k ∈ map fst data -> stored fs sqlite3_db_path k = None) ->
  exists fs1,
    run_script data fs = (Return tt, fs1) /\
    run_script data fs1 =
      (Raise (IntegrityError "UNIQUE constraint failed: kv_store.key"), fs1).
Proof.
  intros Hnd Hne Hfresh.
  destruct (load_fresh_keys fs sqlite3_db_path data Hnd Hfresh)
    as (fs0 & fs1 & Hcreate & Hmove & Htable & Hkeys & _).
  exists fs1. unfold run_script, bind. rewrite Hcreate, Hmove.
  split; [done|].
  destruct Htable as [table Hfs1].
  rewrite create_or_open_result, Hfs1. cbn [kv_store].
  destruct data as [|[k v] data]; [done|].
  apply (move_json_conflict _ _ _ k).
  - apply list_elem_of_here.
  - rewrite (Hkeys k v) by apply list_elem_of_here. eauto.
Qed.

End SqliteStoreFacts.

(** ** The portal cloner on stores that are not trees *)

Section PortalCloneRuns.
Import MetadataTree SharedStore.

Context {DB : Type}.
Variable get_internal_sqlite : string -> string -> outcome Node.
Variable db_insert : string -> string -> Node -> M DB unit.
Variable collection : string.

(** A replay that returns has logged every call. *)
Lemma replay_return_calls (cs : list Call) (st st' : @CloneState DB) :
  replay db_insert cs st = (Return tt, st') ->
  calls st' = (calls st ++ cs)%list /\
  instance_store st' = run_inserts db_insert cs (instance_store st).
Proof.
  revert st. induction cs as [|[coll i|coll k r] cs IH]; intros st; cbn [replay].
  - unfold ret. intros [= <-]. by rewrite app_nil_r.
  - intros H. apply IH in H as [-> ->]. cbn. by rewrite <- app_assoc.
  - unfold bind, insert_record.
    destruct (db_insert coll k r (instance_store st)) as [[[]|e] db'] eqn:Hins;
      [|discriminate].
    intros H. apply IH in H as [-> ->]. cbn. rewrite Hins.
    by rewrite <- app_assoc.
Qed.

Lemma for_each_returns {W A} (body : A -> M W unit) (l : list A) (w w' : W) :
  for_each l body w = (Return tt, w') ->
  Forall (fun x => exists w1 w2, body x w1 = (Return tt, w2)) l.
Proof.
  revert w. induction l as [|x l IH]; intros w; [constructor|].
  cbn [for_each]. unfold bind.
  destruct (body x w) as [[[]|e] w1] eqn:Hx; [|discriminate].
  intros H. constructor; [eauto|]. by apply (IH w1).
Qed.

Lemma Forall_choose {A B} (P : A -> B -> Prop) (l : list A) :
  Forall (fun x => exists y, P x y) l -> exists l', Forall2 P l l'.
Proof.
  induction 1 as [|x l [y Hy] _ [l' IH]].
  - exists []. constructor.
  - exists (y :: l'). by constructor.
Qed.

Lemma depth_Visit_le (i : string) (n : Node) (ts : list Tree) (fuel : nat) :
  Forall (fun t => depth t <= fuel) ts -> depth (Visit i n ts) <= S fuel.
Proof.
  intros H. cbn [depth]. apply le_n_S.
  induction H as [|t ts Ht _ IH]; cbn; lia.
Qed.

(** A call of [recursive_helper] that returns was given the root of a
    stored tree no deeper than the frames it had. *)
Lemma recursive_helper_returns_tree (fuel : nat) (swarm_id : string) :
  forall (i : string) (n : Node) (st st' : @CloneState DB),
    get_internal_sqlite collection i = Return n ->
    recursive_helper get_internal_sqlite db_insert collection
      fuel swarm_id n st = (Return tt, st') ->
    exists ts,
      stored_tree get_internal_sqlite collection (Visit i n ts) /\
      depth (Visit i n ts) <= fuel.
Proof.
  induction fuel as [|fuel IH]; intros i n st st' Hget Hrun; [discriminate|].
  cbn [recursive_helper] in Hrun. unfold bind at 1 in Hrun.
  destruct ((if String.eqb (type n) "portal"
             then insert_record db_insert collection _ n else ret tt) st)
    as [[[]|e] st1]; [|discriminate].
  assert (Hloop : exists st2,
    for_each (children n) (fun child_id =>
      bind (fetch get_internal_sqlite collection child_id)
        (fun child_node =>
           recursive_helper get_internal_sqlite db_insert collection
             fuel swarm_id child_node)) st2 = (Return tt, st')).
  { destruct (truthy (children_ids n)) eqn:Htr; [eauto|].
    exists st'. unfold children.
    destruct (children_ids n) as [[|]|]; try discriminate; reflexivity. }
  destruct Hloop as [st2 Hloop]. apply for_each_returns in Hloop.
  assert (Hkids : Forall (fun child_id => exists t,
    fetched_id t = child_id /\
    stored_tree get_internal_sqlite collection t /\ depth t <= fuel)
    (children n)).
  { eapply Forall_impl; [exact Hloop|]. intros c (w1 & w2 & Hc). cbn in Hc.
    unfold bind, fetch in Hc.
    destruct (get_internal_sqlite collection c) as [nc|e] eqn:Hgc;
      [|discriminate].
    destruct (IH c nc _ _ Hgc Hc) as (ts & Hst & Hd).
    exists (Visit c nc ts). done. }
  apply Forall_choose in Hkids as [ts Hts]. exists ts. split.
  - apply stored_tree_unfold. split; [done|]. split.
    + clear -Hts. induction Hts as [|c t cs ts (Hc & _) _ IHl]; cbn; [done|].
      by rewrite Hc, IHl.
    + clear -Hts. induction Hts as [|c t cs ts (_ & Hs & _) _ IHl];
        constructor; auto.
  - apply depth_Visit_le.
    clear -Hts. induction Hts as [|c t cs ts (_ & _ & Hd) _ IHl];
      constructor; auto.
Qed.

Lemma portal_clone_returns_tree (fuel : nat) (swarm_id : string)
    (st st' : @CloneState DB) :
  portal_clone get_internal_sqlite db_insert collection fuel swarm_id st
    = (Return tt, st') ->
  exists t,
    stored_tree get_internal_sqlite collection t /\
    fetched_id t = internal_root_node_id /\
    depth t <= fuel.
Proof.
  unfold portal_clone, bind, fetch.
  destruct (get_internal_sqlite collection internal_root_node_id)
    as [n|e] eqn:Hget; [|discriminate].
  intros Hrun.
  destruct (recursive_helper_returns_tree fuel swarm_id _ n _ _ Hget Hrun)
    as (ts & Hst & Hd).
  exists (Visit internal_root_node_id n ts). done.
Qed.

(** X7: whenever [portal_clone] returns, what it walked was a tree: the
    shared store holds a tree under the root id, no deeper than the frames
    available, and the calls made are exactly those of its walk, each
    insert having taken effect. *)
Theorem portal_clone_returns_only_on_trees (fuel : nat) (swarm_id : string)
    (st st' : @CloneState DB) :
  portal_clone get_internal_sqlite db_insert collection fuel swarm_id st
    = (Return tt, st') ->
  exists t,
    stored_tree get_internal_sqlite collection t /\
    fetched_id t = internal_root_node_id /\
    depth t <= fuel /\
    calls st' = (calls st ++ walk collection swarm_id t)%list /\
    instance_store st'
      = run_inserts db_insert (shadows collection swarm_id t)
          (instance_store st).
Proof.
  intros Hrun.
  destruct (portal_clone_returns_tree fuel swarm_id st st' Hrun)
    as (t & Hst & Hroot & Hd).
  exists t. split; [done|]. split; [done|]. split; [done|].
  rewrite (portal_clone_replay get_internal_sqlite db_insert collection
             fuel swarm_id t st Hst Hroot Hd) in Hrun.
  apply replay_return_calls in Hrun as [-> ->]. split; [done|].
  by rewrite <- (inserts_walk collection), run_inserts_inserts.
Qed.

(** Under one id the shared store holds at most one tree. *)
Lemma stored_tree_unique (t1 : Tree) :
  forall t2,
    stored_tree get_internal_sqlite collection t1 ->
    stored_tree get_internal_sqlite collection t2 ->
    fetched_id t1 = fetched_id t2 -> t1 = t2.
Proof.
  induction t1 as [i n ts IH] using Tree_forall_ind.
  intros [i2 n2 ts2] H1 H2 Hid. cbn in Hid. subst i2.
  apply stored_tree_unfold in H1 as (Hg1 & Hk1 & Hs1).
  apply stored_tree_unfold in H2 as (Hg2 & Hk2 & Hs2).
  rewrite Hg1 in Hg2. injection Hg2 as <-. f_equal.
  rewrite <- Hk2 in Hk1. clear Hk2 Hg1.
  revert ts2 Hk1 Hs2. induction ts as [|t ts IHts]; intros [|t2 ts2] Hk Hs2;
    try discriminate; [done|].
  cbn in Hk. injection Hk as Hid Hk.
  apply Forall_cons in IH as [IHt IH]. apply Forall_cons in Hs1 as [Hst Hs1].
  apply Forall_cons in Hs2 as [Hst2 Hs2]. f_equal.
  - by apply IHt.
  - by apply IHts.
Qed.

Lemma depth_subtree (i : string) (n : Node) (ts : list Tree) (t : Tree) :
  t ∈ ts -> depth t < depth (Visit i n ts).
Proof.
  intros Hin. cbn [depth]. apply Nat.lt_succ_r.
  induction ts as [|t' ts IH]; [by apply elem_of_nil in Hin|].
  cbn. apply elem_of_cons in Hin as [->|Hin]; [lia|].
  specialize (IH Hin). lia.
Qed.

(** A child id of a stored tree's root is the root of one of its
    subtrees. *)
Lemma stored_child (t : Tree) (j : string) :
  stored_tree get_internal_sqlite collection t ->
  child_of get_internal_sqlite collection (fetched_id t) j ->
  exists t',
    stored_tree get_internal_sqlite collection t' /\
    fetched_id t' = j /\ depth t' < depth t.
Proof.
  destruct t as [i n ts]. intros Hst (n' & Hget & Hj). cbn in Hget.
  apply stored_tree_unfold in Hst as (Hg & Hk & Hs).
  rewrite Hg in Hget. injection Hget as <-. rewrite <- Hk in Hj.
  apply list_elem_of_fmap in Hj as (t' & -> & Hin).
  exists t'. split; [|split; [done|by apply depth_subtree]].
  rewrite Forall_forall in Hs. by apply Hs.
Qed.

Lemma stored_descendant (i j : string) :
  rtc (child_of get_internal_sqlite collection) i j ->
  forall t,
    stored_tree get_internal_sqlite collection t -> fetched_id t = i ->
    exists t',
      stored_tree get_internal_sqlite collection t' /\
      fetched_id t' = j /\ depth t' <= depth t.
Proof.
  induction 1 as [i|i k j Hik _ IH]; intros t Hst Hid.
  - exists t. auto.
  - subst i. destruct (stored_child t k Hst Hik) as (tk & Hstk & Hidk & Hdk).
    destruct (IH tk Hstk Hidk) as (t' & Hst' & Hid' & Hd').
    exists t'. split; [done|]. split; [done|]. lia.
Qed.

Lemma stored_proper_descendant (i j : string) :
  tc (child_of get_internal_sqlite collection) i j ->
  forall t,
    stored_tree get_internal_sqlite collection t -> fetched_id t = i ->
    exists t',
      stored_tree get_internal_sqlite collection t' /\
      fetched_id t' = j /\ depth t' < depth t.
Proof.
  induction 1 as [i j Hij|i k j Hik _ IH]; intros t Hst Hid; subst i.
  - by apply stored_child.
  - destruct (stored_child t k Hst Hik) as (tk & Hstk & Hidk & Hdk).
    destruct (IH tk Hstk Hidk) as (t' & Hst' & Hid' & Hd').
    exists t'. split; [done|]. split; [done|]. lia.
Qed.

(** X8: if some id reachable from the root through [children_ids] is its
    own descendant, [portal_clone] never returns: with any number of
    frames it raises. *)
Theorem portal_clone_cycle_never_returns (i : string) (fuel : nat)
    (swarm_id : string) (st : @CloneState DB) :
  rtc (child_of get_internal_sqlite collection) internal_root_node_id i ->
  tc (child_of get_internal_sqlite collection) i i ->
  exists e st',
    portal_clone get_internal_sqlite db_insert collection fuel swarm_id st
      = (Raise e, st').
Proof.
  intros Hreach Hcycle.
  destruct (portal_clone get_internal_sqlite db_insert collection
              fuel swarm_id st) as [[[]|e] st'] eqn:Hrun; [|eauto].
  exfalso.
  destruct (portal_clone_returns_tree fuel swarm_id st st' Hrun)
    as (t & Hst & Hroot & _).
  destruct (stored_descendant _ _ Hreach t Hst Hroot) as (ti & Hsti & Hidi & _).
  destruct (stored_proper_descendant _ _ Hcycle ti Hsti Hidi)
    as (ti' & Hsti' & Hidi' & Hlt).
  rewrite (stored_tree_unique ti' ti Hsti' Hsti) in Hlt; [lia|].
  by rewrite Hidi, Hidi'.
Qed.

Lemma for_each_calls (P : Call -> Prop) (body : string -> M (@CloneState DB) unit)
    (l : list string) :
  (forall x st, exists new,
      calls (snd (body x st)) = (calls st ++ new)%list /\ Forall P new) ->
  forall st, exists new,
    calls (snd (for_each l body st)) = (calls st ++ new)%list /\ Forall P new.
Proof.
  intros Hbody. induction l as [|x l IH]; intros st; cbn [for_each].
  - exists []. by rewrite app_nil_r.
  - unfold bind. destruct (Hbody x st) as (new1 & H1 & HP1).
    destruct (body x st) as [[[]|e] st1]; cbn [snd] in *; [|eauto].
    destruct (IH st1) as (new2 & H2 & HP2).
    exists (new1 ++ new2)%list. rewrite H2, H1, <- app_assoc. split; [done|].
    by apply Forall_app.
Qed.

Lemma recursive_helper_calls (fuel : nat) (swarm_id : string) :
  forall (n : Node) (st : @CloneState DB),
    (exists i, get_internal_sqlite collection i = Return n) ->
    exists new,
      calls (snd (recursive_helper get_internal_sqlite db_insert collection
                    fuel swarm_id n st))
        = (calls st ++ new)%list /\
      Forall (clone_call get_internal_sqlite collection swarm_id) new.
Proof.
  induction fuel as [|fuel IH]; intros n st Hn.
  - exists []. cbn. by rewrite app_nil_r.
  - cbn [recursive_helper]. unfold bind at 1.
    assert (Hfirst : exists new1,
      calls (snd ((if String.eqb (type n) "portal"
                   then insert_record db_insert collection
                          (swarm_id +:+ "_" +:+ id n) n
                   else ret tt) st)) = (calls st ++ new1)%list /\
      Forall (clone_call get_internal_sqlite collection swarm_id) new1).
    { destruct (String.eqb (type n) "portal") eqn:Hp.
      - apply String.eqb_eq in Hp. unfold insert_record.
        destruct (db_insert _ _ _ _) as [r db']. cbn.
        eexists [_]. split; [reflexivity|]. constructor; [|constructor].
        cbn. auto.
      - exists []. cbn. by rewrite app_nil_r. }
    destruct Hfirst as (new1 & H1 & HP1).
    destruct ((if String.eqb (type n) "portal"
               then insert_record db_insert collection
                      (swarm_id +:+ "_" +:+ id n) n
               else ret tt) st)
      as [[[]|e] st1]; cbn [snd] in *; [|eauto].
    assert (Hloop : exists new2,
      calls (snd ((if truthy (children_ids n)
        then for_each (children n) (fun child_id =>
               bind (fetch get_internal_sqlite collection child_id)
                 (fun child_node =>
                    recursive_helper get_internal_sqlite db_insert collection
                      fuel swarm_id child_node))
        else ret tt) st1)) = (calls st1 ++ new2)%list /\
      Forall (clone_call get_internal_sqlite collection swarm_id) new2).
    { destruct (truthy (children_ids n)).
      - apply for_each_calls. intros c st0. unfold bind, fetch.
        destruct (get_internal_sqlite collection c) as [nc|e] eqn:Hc; cbn [snd].
        + destruct (IH nc {| instance_store := instance_store st0;
                             calls := calls st0 ++ [Get collection c] |})
            as (new & Hnew & HP); [eauto|].
          exists (Get collection c :: new). rewrite Hnew. cbn [calls].
          rewrite <- app_assoc. split; [done|]. by constructor.
        + exists [Get collection c]. cbn. split; [done|].
          by repeat constructor.
      - exists []. cbn. by rewrite app_nil_r. }
    destruct Hloop as (new2 & H2 & HP2).
    exists (new1 ++ new2)%list. rewrite H2, H1, <- app_assoc. split; [done|].
    by apply Forall_app.
Qed.

(** X9: on every run of [portal_clone], whether it returns or raises
    and whatever the shape of the shared store, the calls it adds are
    reads of its own collection and inserts of portal records that the
    shared store holds, each under the instance's key for the record. *)
Theorem portal_clone_only_copies_portals (fuel : nat) (swarm_id : string)
    (st : @CloneState DB) :
  exists new,
    calls (snd (portal_clone get_internal_sqlite db_insert collection
                  fuel swarm_id st))
      = (calls st ++ new)%list /\
    Forall (clone_call get_internal_sqlite collection swarm_id) new.
Proof.
  unfold portal_clone, bind, fetch.
  destruct (get_internal_sqlite collection internal_root_node_id)
    as [n|e] eqn:Hget; cbn [snd].
  - destruct (recursive_helper_calls fuel swarm_id n
                {| instance_store := instance_store st;
                   calls := calls st ++ [Get collection internal_root_node_id] |})
      as (new & Hnew & HP); [eauto|].
    exists (Get collection internal_root_node_id :: new).
    rewrite Hnew. cbn [calls]. rewrite <- app_assoc. split; [done|].
    by constructor.
  - exists [Get collection internal_root_node_id]. split; [done|].
    by repeat constructor.
Qed.

End PortalCloneRuns.

(** ** The action resolver: what it leaves in the caller's [params] *)

Section ResolverParams.
Import Action.

Variable get_action_space_metadata :
  SwarmID -> outcome (gmap string ActionMetadata).
Variable import_module : string -> outcome PyModule.

(** The loop with every required key configured. *)
Lemma inject_all_present_params (swarm_id : SwarmID) (required : list string) :
  forall st : ActionState,
    (forall k, k ∈ required -> config_missing swarm_id k = false) ->
    exists st',
      inject_required_configs required swarm_id st = (Return tt, st') /\
      entered st' = entered st /\
      (forall k, k ∈ required ->
         params st' !! k = attributes (configs swarm_id) !! k) /\
      (forall k, k ∉ required -> params st' !! k = params st !! k).
Proof.
  induction required as [|c required IH]; intros st Hall.
  - exists st. split; [done|]. split; [done|]. split; [|done].
    intros k Hk. by apply elem_of_nil in Hk.
  - destruct (present_config_step swarm_id c required st) as (v & Hv & ->).
    { apply Hall, list_elem_of_here. }
    destruct (IH {| params := <[c := v]> (params st); entered := entered st |})
      as (st' & Hrun & Hent & Hin & Hout).
    { intros k Hk. apply Hall. by apply list_elem_of_further. }
    exists st'. split; [done|]. split; [done|]. cbn [params] in Hout. split.
    + intros k Hk. destruct (decide (k ∈ required)) as [Hr|Hr]; [by apply Hin|].
      apply elem_of_cons in Hk as [->|Hk]; [|done].
      by rewrite (Hout c Hr), lookup_insert_eq.
    + intros k Hk. apply not_elem_of_cons in Hk as [Hne Hk].
      by rewrite (Hout k Hk), lookup_insert_ne.
Qed.

(** The loop on any configuration: a key of [params] either keeps its
    value or is a required, configured key set to its configured value. *)
Lemma inject_changes_only_required (swarm_id : SwarmID)
    (required : list string) :
  forall (st : ActionState) (k : string),
    params (snd (inject_required_configs required swarm_id st)) !! k
      = params st !! k
    \/ (k ∈ required /\ config_missing swarm_id k = false /\
        params (snd (inject_required_configs required swarm_id st)) !! k
          = attributes (configs swarm_id) !! k).
Proof.
  induction required as [|c required IH]; intros st k; [by left|].
  destruct (config_missing swarm_id c) eqn:Hc.
  - destruct (missing_config_step swarm_id c required st Hc) as (e & -> & _).
    by left.
  - destruct (present_config_step swarm_id c required st Hc) as (v & Hv & ->).
    destruct (IH {| params := <[c := v]> (params st); entered := entered st |} k)
      as [Hsame|(Hin & Hmiss & Hval)].
    + rewrite Hsame. cbn [params]. destruct (decide (c = k)) as [<-|Hne].
      * right. rewrite lookup_insert_eq. split; [apply list_elem_of_here|].
        by split.
      * left. by rewrite lookup_insert_ne.
    + right. split; [by apply list_elem_of_further|]. by split.
Qed.

(** X10: when every required key is configured, the call raises the
    unbound-variable error and yet leaves its effect in the caller's
    [params]: each required key holds its configured value, and every
    other key, ["action_type"] included, is as the caller passed it. *)
Theorem action_leaves_configs_in_params (action_id : string)
    (swarm_id : SwarmID) (st : ActionState)
    (metadata : gmap string ActionMetadata) (entry : ActionMetadata) :
  get_action_space_metadata swarm_id = Return metadata ->
  metadata !! action_id = Some entry ->
  (forall k, k ∈ required_configs entry -> config_missing swarm_id k = false) ->
  exists st',
    action get_action_space_metadata import_module action_id swarm_id st
      = (Raise (UnboundLocalError "action_type"), st') /\
    (forall k, k ∈ required_configs entry ->
       params st' !! k = attributes (configs swarm_id) !! k) /\
    (forall k, k ∉ required_configs entry -> params st' !! k = params st !! k).
Proof.
  intros Hget Hentry Hall.
  destruct (inject_all_present_params swarm_id _ st Hall)
    as (st' & Hrun & _ & Hin & Hout).
  exists st'. split; [|done].
  rewrite (action_with_entry _ _ _ _ _ _ _ Hget Hentry). unfold bind at 1.
  by rewrite Hrun.
Qed.

(** X11: on every call, whatever it raises, a key of the caller's
    [params] either keeps its value or is a required key of the action
    that is configured, now holding the configured value; no other key is
    added, changed or removed. *)
Theorem action_changes_only_required_params (action_id : string)
    (swarm_id : SwarmID) (st : ActionState) (k : string) :
  params (snd (action get_action_space_metadata import_module
                 action_id swarm_id st)) !! k = params st !! k
  \/ exists metadata entry,
       get_action_space_metadata swarm_id = Return metadata /\
       metadata !! action_id = Some entry /\
       k ∈ required_configs entry /\
       config_missing swarm_id k = false /\
       params (snd (action get_action_space_metadata import_module
                      action_id swarm_id st)) !! k
         = attributes (configs swarm_id) !! k.
Proof.
  destruct (get_action_space_metadata swarm_id) as [metadata|e] eqn:Hget.
  2:{ left. unfold action, bind at 1, lift. by rewrite Hget. }
  destruct (metadata !! action_id) as [entry|] eqn:Hentry.
  2:{ left. unfold action, bind at 1 2, lift, raise. by rewrite Hget, Hentry. }
  rewrite (action_with_entry _ _ _ _ _ _ _ Hget Hentry).
  pose proof (inject_changes_only_required swarm_id (required_configs entry) st k)
    as Hloop.
  assert (Hst : snd (bind (inject_required_configs (required_configs entry) swarm_id)
    (fun _ => bind (import_main import_module None)
       (fun main_function =>
          bind (pop_param "action_type") (fun _ => call_main main_function)))
    st) = snd (inject_required_configs (required_configs entry) swarm_id st)).
  { unfold bind at 1.
    destruct (inject_required_configs (required_configs entry) swarm_id st)
      as [[[]|e] st1]; reflexivity. }
  rewrite Hst.
  destruct Hloop as [Hsame|(Hin & Hmiss & Hval)]; [by left|].
  right. exists metadata, entry. done.
Qed.

End ResolverParams.

(** ** The module path of an action script *)

Lemma contains_slash_cons (c : Ascii.ascii) (s : string) :
  contains "/" (String c s) = Ascii.eqb "/"%char c || contains "/" s.
Proof.
  change (contains "/" (String c s))
    with (is_prefix "/" (String c s) || contains "/" s).
  f_equal. change (is_prefix "/" (String c s))
    with (if Ascii.eqb "/"%char c then is_prefix "" s else false).
  by destruct (Ascii.eqb "/"%char c).
Qed.

Lemma replace_char_no_slash (s : string) :
  contains "/" (Action.replace_char "/"%char "."%char s) = false.
Proof.
  induction s as [|c s IH]; [done|].
  cbn [Action.replace_char]. rewrite contains_slash_cons, IH.
  destruct (Ascii.eqb c "/"%char) eqn:Hc; [done|].
  rewrite Ascii.eqb_sym, Hc. done.
Qed.

Lemma substring_no_slash (s : string) :
  forall n, contains "/" s = false -> contains "/" (substring 0 n s) = false.
Proof.
  induction s as [|c s IH]; intros [|n]; try done.
  rewrite contains_slash_cons. intros [Hc Hs]%orb_false_iff.
  cbn [substring]. rewrite contains_slash_cons, Hc. by apply IH.
Qed.

Lemma length_append (x y : string) :
  String.length (x +:+ y) = String.length x + String.length y.
Proof.
  induction x as [|c x IH]; [done|].
  change (String c x +:+ y) with (String c (x +:+ y)).
  cbn [String.length]. by rewrite IH.
Qed.

Lemma substring_prefix (x y : string) :
  substring 0 (String.length x) (x +:+ y) = x.
Proof.
  induction x as [|c x IH].
  - by destruct y.
  - change (String c x +:+ y) with (String c (x +:+ y)).
    cbn [String.length substring]. by rewrite IH.
Qed.

Lemma substring_whole (y : string) : substring 0 (String.length y) y = y.
Proof. induction y as [|c y IH]; cbn; [done|]. by rewrite IH. Qed.

Lemma substring_suffix (x y : string) :
  substring (String.length x) (String.length y) (x +:+ y) = y.
Proof.
  induction x as [|c x IH]; [apply substring_whole|].
  change (String c x +:+ y) with (String c (x +:+ y)).
  cbn [String.length substring]. exact IH.
Qed.

Lemma replace_char_append (a b : Ascii.ascii) (x y : string) :
  Action.replace_char a b (x +:+ y)
  = Action.replace_char a b x +:+ Action.replace_char a b y.
Proof.
  induction x as [|c x IH]; [done|].
  change (String c x +:+ y) with (String c (x +:+ y)).
  cbn [Action.replace_char]. rewrite IH. reflexivity.
Qed.

Lemma endswith_append (x suffix : string) :
  Action.endswith (x +:+ suffix) suffix = true.
Proof.
  unfold Action.endswith. rewrite length_append.
  replace (String.length x + String.length suffix - String.length suffix)
    with (String.length x) by lia.
  rewrite substring_suffix, String.eqb_refl, andb_true_r.
  apply Nat.leb_le. lia.
Qed.

Lemma drop_last_append (x suffix : string) :
  Action.drop_last (String.length suffix) (x +:+ suffix) = x.
Proof.
  unfold Action.drop_last. rewrite length_append.
  replace (String.length x + String.length suffix - String.length suffix)
    with (String.length x) by lia.
  apply substring_prefix.
Qed.

(** X12: the module path of a script has no slash left in it; and for a
    path that ends in [.py], or whose last component is a directory named
    [py], it is the dotted path without that ending. *)
Theorem module_path_dotted (s : string) :
  contains "/" (Action.module_path s) = false /\
  Action.module_path (s +:+ ".py")
    = Action.replace_char "/"%char "."%char s /\
  Action.module_path (s +:+ "/py")
    = Action.replace_char "/"%char "."%char s.
Proof.
  split; [|split].
  - unfold Action.module_path.
    destruct (Action.endswith _ _); [|apply replace_char_no_slash].
    apply substring_no_slash, replace_char_no_slash.
  - unfold Action.module_path. rewrite replace_char_append.
    change (Action.replace_char "/"%char "."%char ".py") with ".py".
    rewrite endswith_append. apply (drop_last_append _ ".py").
  - unfold Action.module_path. rewrite replace_char_append.
    change (Action.replace_char "/"%char "."%char "/py") with ".py".
    rewrite endswith_append. apply (drop_last_append _ ".py").
Qed.

(** ** The constructors of the operation classes *)

Section ConstructorFacts.
Import SwarmOperations Constructors.

Variable generate_uuid : string -> string.

Lemma literal_or_default_valid (kwargs : gmap string pyval)
    (name lit t : string) :
  literal_or_default kwargs name lit = Valid t -> t = lit.
Proof.
  unfold literal_or_default.
  destruct (kwargs !! name) as [[| | |s| |]|]; try discriminate.
  - destruct (String.eqb s lit) eqn:Hs; [|discriminate].
    intros [= <-]. by apply String.eqb_eq.
  - by intros [= <-].
Qed.

Lemma required_literal_valid (kwargs : gmap string pyval) (name : string)
    (allowed : list string) (t : string) :
  required_literal kwargs name allowed = Valid t -> t ∈ allowed.
Proof.
  unfold required_literal.
  destruct (kwargs !! name) as [[| | |s| |]|]; try discriminate.
  case_bool_decide; [|discriminate]. by intros [= <-].
Qed.

(** X13: whatever the keyword arguments, an operation that a class's
    constructor returns has the [operation_type] of that class and is
    well formed; one the base class returns has a type of the declared
    literal.  A constructor never returns an operation of another
    class's type. *)
Theorem constructors_keep_operation_type (kwargs : gmap string pyval)
    (node_embryo : option NodeEmbryo) (op : SwarmOperation) :
  (BlockingOperation_init generate_uuid kwargs = Return op ->
     operation_type op = "blocking" /\ well_formed op) /\
  (SpawnOperation_init generate_uuid node_embryo kwargs = Return op ->
     operation_type op = "spawn" /\ well_formed op) /\
  (ActionOperation_init generate_uuid kwargs = Return op ->
     operation_type op = "action" /\ well_formed op) /\
  (TerminationOperation_init generate_uuid kwargs = Return op ->
     operation_type op = "terminate" /\ well_formed op) /\
  (FailureOperation_init generate_uuid kwargs = Return op ->
     operation_type op = "node_failure" /\ well_formed op) /\
  (UserCommunicationOperation_init generate_uuid kwargs = Return op ->
     operation_type op = "user_communication" /\ well_formed op) /\
  (SwarmOperation_init kwargs = Return op ->
     operation_type op ∈ operation_type_literal /\ well_formed op).
Proof.
  repeat split.
  all: unfold BlockingOperation_init, SpawnOperation_init,
         ActionOperation_init, TerminationOperation_init,
         FailureOperation_init, UserCommunicationOperation_init,
         SwarmOperation_init, well_formed in *.
  all: repeat match goal with
         | H : context [match ?x with Valid _ => _ | _ => _ end] |- _ =>
             destruct x eqn:?; try discriminate H
         end.
  all: match goal with H : Return _ = Return _ |- _ => injection H as <- end.
  all: cbn [operation_type fields subclass_literal].
  all: repeat match goal with
         | H : literal_or_default _ _ _ = Valid _ |- _ =>
             apply literal_or_default_valid in H; subst
         | H : required_literal _ _ _ = Valid _ |- _ =>
             apply required_literal_valid in H
         end.
  all: first [reflexivity | assumption | apply list_elem_of_here].
Qed.

End ConstructorFacts.

(** ** From construction to dispatch *)

Section ConstructedDispatch.
Import SwarmOperations Constructors Core.

Context {SwarmConfig World : Type}.
Variable generate_uuid : string -> string.
Variables spawn blocking terminate failure : @handler SwarmConfig World.

(** The dispatcher on an operation whose type has handler [h]. *)
Lemma execute_mapped (swarm_config : SwarmConfig) (op : SwarmOperation)
    (st : DispatchState) (h : handler) :
  operation_mapping spawn blocking terminate failure !! operation_type op
    = Some h ->
  execute_swarmstar_operation spawn blocking terminate failure
      swarm_config op st =
    (match fst (h swarm_config op (world st)) with
     | Return output => Return (normalize output)
     | Raise e => Raise e
     end,
     {| world := snd (h swarm_config op (world st));
        invoked := invoked st ++ [(operation_type op, op)] |}).
Proof.
  intros Hh. unfold execute_swarmstar_operation, bind, call_handler, ret.
  rewrite Hh. by destruct (h swarm_config op (world st)) as [[out|e] w'].
Qed.

Lemma literal_type_valid (kwargs : gmap string pyval) (lit : string)
    (op : SwarmOperation) (i : option string) (t : string)
    (f : OperationFields) :
  literal_or_default kwargs "operation_type" lit = Valid t ->
  Return {| id := i; operation_type := t; fields := f |} = Return op ->
  operation_type op = lit.
Proof.
  intros Ht [= <-]. cbn. by apply literal_or_default_valid in Ht.
Qed.

(** X14: an operation built by the constructor of [SpawnOperation],
    [BlockingOperation], [TerminationOperation] or [FailureOperation]
    is handed by the dispatcher to the handler of that class, once, and
    to no other; one built by the constructor of
    [UserCommunicationOperation] or [ActionOperation] is refused with the
    unknown-type error and reaches no handler. *)
Theorem constructed_operations_dispatch (swarm_config : SwarmConfig)
    (kwargs : gmap string pyval) (node_embryo : option NodeEmbryo)
    (op : SwarmOperation) (st : DispatchState) :
  let run (key : string) (h : handler) :=
    execute_swarmstar_operation spawn blocking terminate failure
        swarm_config op st =
      (match fst (h swarm_config op (world st)) with
       | Return output => Return (normalize output)
       | Raise e => Raise e
       end,
       {| world := snd (h swarm_config op (world st));
          invoked := invoked st ++ [(key, op)] |}) in
  let refused :=
    execute_swarmstar_operation spawn blocking terminate failure
        swarm_config op st =
      (Raise (ValueError ("Unknown swarm operation type: "
                            +:+ operation_type op)), st) in
  (SpawnOperation_init generate_uuid node_embryo kwargs = Return op ->
     run "spawn" spawn) /\
  (BlockingOperation_init generate_uuid kwargs = Return op ->
     run "blocking" blocking) /\
  (TerminationOperation_init generate_uuid kwargs = Return op ->
     run "terminate" terminate) /\
  (FailureOperation_init generate_uuid kwargs = Return op ->
     run "node_failure" failure) /\
  (UserCommunicationOperation_init generate_uuid kwargs = Return op ->
     refused) /\
  (ActionOperation_init generate_uuid kwargs = Return op -> refused).
Proof.
  cbv zeta.
  assert (Htype :
    (SpawnOperation_init generate_uuid node_embryo kwargs = Return op ->
       operation_type op = "spawn") /\
    (BlockingOperation_init generate_uuid kwargs = Return op ->
       operation_type op = "blocking") /\
    (TerminationOperation_init generate_uuid kwargs = Return op ->
       operation_type op = "terminate") /\
    (FailureOperation_init generate_uuid kwargs = Return op ->
       operation_type op = "node_failure") /\
    (UserCommunicationOperation_init generate_uuid kwargs = Return op ->
       operation_type op = "user_communication") /\
    (ActionOperation_init generate_uuid kwargs = Return op ->
       operation_type op = "action")).
  { repeat split; intros H.
    all: unfold BlockingOperation_init, SpawnOperation_init,
           ActionOperation_init, TerminationOperation_init,
           FailureOperation_init, UserCommunicationOperation_init in H.
    all: repeat match type of H with
           | context [match ?x with Valid _ => _ | _ => _ end] =>
               destruct x eqn:?; try discriminate H
           end.
    all: eapply literal_type_valid; eassumption. }
  destruct Htype as (Hs & Hb & Ht & Hf & Hu & Ha).
  repeat split; intros H.
  - pose proof (execute_mapped swarm_config op st spawn) as E.
    rewrite (Hs H) in E. by apply E.
  - pose proof (execute_mapped swarm_config op st blocking) as E.
    rewrite (Hb H) in E. by apply E.
  - pose proof (execute_mapped swarm_config op st terminate) as E.
    rewrite (Ht H) in E. by apply E.
  - pose proof (execute_mapped swarm_config op st failure) as E.
    rewrite (Hf H) in E. by apply E.
  - apply execute_unmapped. by rewrite (Hu H).
  - apply execute_unmapped. by rewrite (Ha H).
Qed.

End ConstructedDispatch.

(** ** Starting a swarm *)

Section SpawnSwarmFacts.
Import SwarmOperations Constructors Core CoreSpawn.

Context {SwarmConfig World : Type}.
Variable generate_uuid : string -> string.
Variable spawn_swarmstar_space : SwarmConfig -> M World unit.
Variables spawn blocking terminate failure : @handler SwarmConfig World.

(** X15: [spawn_swarm] first sets up the swarm's space; if that raises,
    so does it.  Otherwise it returns a root spawn operation (no parent
    node) for the decompose-directive action with the goal as its
    message, and the dispatcher hands exactly that operation to the spawn
    handler. *)
Theorem spawn_swarm_reaches_spawn_handler (swarm_config : SwarmConfig)
    (goal : string) (w : World) :
  let root_spawn_operation :=
    {| id := Some (generate_uuid "spawn_op");
       operation_type := "spawn";
       fields :=
         SpawnFields
           {| action_id := "swarmstar/actions/reasoning/decompose_directive";
              message := goal |} None None None |} in
  spawn_swarm generate_uuid spawn_swarmstar_space swarm_config goal w =
    (match fst (spawn_swarmstar_space swarm_config w) with
     | Return _ => Return root_spawn_operation
     | Raise e => Raise e
     end, snd (spawn_swarmstar_space swarm_config w)) /\
  forall st : DispatchState,
    execute_swarmstar_operation spawn blocking terminate failure
        swarm_config root_spawn_operation st =
      (match fst (spawn swarm_config root_spawn_operation (world st)) with
       | Return output => Return (normalize output)
       | Raise e => Raise e
       end,
       {| world := snd (spawn swarm_config root_spawn_operation (world st));
          invoked := invoked st ++ [("spawn", root_spawn_operation)] |}).
Proof.
  cbv zeta. split.
  - unfold spawn_swarm, bind.
    by destruct (spawn_swarmstar_space swarm_config w) as [[[]|e] w1].
  - intros st. by apply execute_mapped.
Qed.

End SpawnSwarmFacts.

(** ** The conversation action *)

Section ConversationFacts.
Import SwarmOperations Constructors Conversation.

Context {World : Type}.
Variable generate_uuid : string -> string.
Variable log : pydict -> M World unit.
Variable repr_list : list string -> string.
Variable call_generate_message :
  string -> string -> list string -> QuestionAskerConversationState.t ->
  M World SwarmOperation.

(** The keyword arguments every method passes to [BlockingOperation]. *)
Lemma blocking_call (node_id blocking_type next : string)
    (args context : pydict) :
  BlockingOperation_init generate_uuid
    (<["node_id" := VStr node_id]>
    (<["blocking_type" := VStr blocking_type]>
    (<["args" := VDict args]>
    (<["context" := VDict context]>
    (<["next_function_to_call" := VStr next]> ∅)))))
  = Return {| id := Some (generate_uuid "blocking_op");
              operation_type := "blocking";
              fields := BlockingFields node_id blocking_type args context next |}.
Proof. reflexivity. Qed.

Lemma user_communication_call (node_id message next : string)
    (context : pydict) :
  UserCommunicationOperation_init generate_uuid
    (<["node_id" := VStr node_id]>
    (<["message" := VStr message]>
    (<["context" := VDict context]>
    (<["next_function_to_call" := VStr next]> ∅))))
  = Return {| id := Some (generate_uuid "user_comms_op");
              operation_type := "user_communication";
              fields := UserCommunicationFields node_id message context next |}.
Proof. reflexivity. Qed.

(** A method that logs twice and then hands back a fixed result. *)
Lemma two_logs_then (d1 d2 : pydict) (o : outcome SwarmOperation)
    (w w' : World) (op : SwarmOperation) :
  bind (log d1) (fun _ => bind (log d2) (fun _ => lift o)) w = (Return op, w') ->
  o = Return op.
Proof.
  unfold bind, lift. destruct (log d1 w) as [[[]|e1] w1]; [|discriminate].
  destruct (log d2 w1) as [[[]|e2] w2]; [|discriminate]. by intros [= -> _].
Qed.

Lemma one_log_then (d : pydict) (o : outcome SwarmOperation)
    (w w' : World) (op : SwarmOperation) :
  bind (log d) (fun _ => lift o) w = (Return op, w') -> o = Return op.
Proof.
  unfold bind, lift. destruct (log d w) as [[[]|e1] w1]; [|discriminate].
  by intros [= -> _].
Qed.

Lemma blocking_resumable (node : AskUserQuestions.SwarmNode)
    (blocking_type next : string) (args context : pydict)
    (op : SwarmOperation) :
  next ∈ methods ->
  Return {| id := Some (generate_uuid "blocking_op");
            operation_type := "blocking";
            fields := BlockingFields (AskUserQuestions.id node) blocking_type
                        args context next |} = Return op ->
  resumable node "blocking" op.
Proof. intros Hnext [= <-]. repeat split. eauto. Qed.

Lemma user_communication_resumable (node : AskUserQuestions.SwarmNode)
    (message next : string) (context : pydict) (op : SwarmOperation) :
  next ∈ methods ->
  Return {| id := Some (generate_uuid "user_comms_op");
            operation_type := "user_communication";
            fields := UserCommunicationFields (AskUserQuestions.id node)
                        message context next |} = Return op ->
  resumable node "user_communication" op.
Proof. intros Hnext [= <-]. repeat split. eauto. Qed.

Lemma three_logs_then (d1 d2 d3 : pydict) (o : outcome SwarmOperation)
    (w w' : World) (op : SwarmOperation) :
  bind (log d1)
    (fun _ => bind (log d2) (fun _ => bind (log d3) (fun _ => lift o))) w
  = (Return op, w') ->
  o = Return op.
Proof.
  unfold bind at 1. destruct (log d1 w) as [[[]|e1] w1]; [|discriminate].
  apply two_logs_then.
Qed.

Ltac in_methods :=
  unfold methods;
  repeat first [apply list_elem_of_here | apply list_elem_of_further].

(** X16: every operation a method of the conversation action returns is
    bound to the action's node and names, as the function to call next, a
    method the class defines; the methods that ask for a completion
    return blocking operations, the two that address the user return
    user-communication operations, and none returns a termination. *)
Theorem conversation_operations_resumable (node : AskUserQuestions.SwarmNode)
    (op : SwarmOperation) (w w' : World) :
  (generate_initial_conversation_state generate_uuid log node w
     = (Return op, w') -> resumable node "blocking" op) /\
  (main generate_uuid log node w = (Return op, w') ->
     resumable node "blocking" op) /\
  (forall completion,
     handle_initial_conversation_state generate_uuid log repr_list
       node completion w = (Return op, w') ->
     resumable node "blocking" op) /\
  (forall questions persisted_context reports chat_name completion,
     send_user_first_message generate_uuid log node questions
       persisted_context reports chat_name completion w = (Return op, w') ->
     resumable node "user_communication" op) /\
  (forall user_message recent_ai_message reports completion,
     generate_message generate_uuid log repr_list node user_message
       recent_ai_message reports completion w = (Return op, w') ->
     resumable node "blocking" op) /\
  (forall questions persisted_context reports completion,
     send_user_message generate_uuid log node questions persisted_context
       reports completion w = (Return op, w') ->
     resumable node "user_communication" op) /\
  (forall questions persisted_context reports recent_ai_message user_response,
     update_conversation_state generate_uuid log repr_list node questions
       persisted_context reports recent_ai_message user_response w
       = (Return op, w') ->
     resumable node "blocking" op) /\
  (forall reports,
     finalize_report generate_uuid log repr_list node reports w
       = (Return op, w') ->
     resumable node "blocking" op) /\
  (forall reports user_response recent_ai_message completion,
     QuestionAskerConversationState.questions completion = [] ->
     decide_to_continue_or_end_conversation generate_uuid log repr_list
       call_generate_message node reports user_response recent_ai_message
       completion w = (Return op, w') ->
     resumable node "blocking" op).
Proof.
  repeat apply conj; intros.
  all: try match goal with
         | Hq : QuestionAskerConversationState.questions _ = [] |- _ =>
             unfold decide_to_continue_or_end_conversation, finalize_report in *;
             rewrite Hq in *; cbn [bool_decide orb] in *
         end.
  all: match goal with
       | H : _ = (Return _, _) |- _ =>
           first [ apply two_logs_then in H
                 | apply one_log_then in H
                 | apply three_logs_then in H ];
           first [ rewrite blocking_call in H;
                   apply blocking_resumable in H; [exact H | in_methods]
                 | rewrite user_communication_call in H;
                   apply user_communication_resumable in H;
                   [exact H | in_methods] ]
       end.
Qed.

(** X17: when the completion leaves no question open,
    [decide_to_continue_or_end_conversation] returns the request for the
    final report, made over the earlier reports followed by the new one
    and continuing at [terminate_conversation]; when questions remain it
    hands the same lengthened list of reports to [generate_message]. *)
Theorem decide_appends_report (node : AskUserQuestions.SwarmNode)
    (reports : list string) (user_response recent_ai_message : string)
    (completion : QuestionAskerConversationState.t) (w : World) :
  let all_reports :=
    (reports ++ [QuestionAskerConversationState.report completion])%list in
  (QuestionAskerConversationState.questions completion = [] ->
   forall op w',
     decide_to_continue_or_end_conversation generate_uuid log repr_list
       call_generate_message node reports user_response recent_ai_message
       completion w = (Return op, w') ->
     op = {| id := Some (generate_uuid "blocking_op");
             operation_type := "blocking";
             fields :=
               BlockingFields (AskUserQuestions.id node) "openai_completion"
                 [("messages",
                   VList [chat_message "system"
                            (FINALIZE_REPORT_INSTRUCTIONS +:+ nl +:+ nl
                               +:+ "Reports: " +:+ repr_list all_reports)])]
                 [] "terminate_conversation" |}) /\
  (QuestionAskerConversationState.questions completion <> [] ->
   decide_to_continue_or_end_conversation generate_uuid log repr_list
     call_generate_message node reports user_response recent_ai_message
     completion w
   = call_generate_message user_response recent_ai_message all_reports
       completion w).
Proof.
  cbv zeta. split.
  - intros Hq op w' H.
    unfold decide_to_continue_or_end_conversation, finalize_report in H.
    rewrite Hq in H. cbn [bool_decide orb] in H.
    apply three_logs_then in H. rewrite blocking_call in H.
    by injection H as <-.
  - intros Hq. unfold decide_to_continue_or_end_conversation.
    destruct (QuestionAskerConversationState.questions completion) as [|q qs];
      [done|].
    rewrite bool_decide_eq_false_2 by done. reflexivity.
Qed.

End ConversationFacts.

(** ** The tool-building agent *)

Section AgentFacts.
Import Agent.

Variable json_loads : string -> outcome pyval.
Variable create : pyval -> pyval -> pyval -> outcome Completion.
Variable str_completion : Completion -> string.
Variable str_dict : gmap string pyval -> string.

(** The loop when every call parses. *)
Lemma record_loop_parsed (calls : list ToolCall) :
  forall tool_output : gmap string pyval,
    Forall (parses json_loads) calls ->
    for_each calls (record_tool_call json_loads) tool_output
    = (Return tt, foldl (record_parsed json_loads) tool_output calls).
Proof.
  induction calls as [|tc calls IH]; intros d Hall; [done|].
  apply Forall_cons in Hall as [[v Hv] Hall].
  cbn [for_each foldl]. unfold bind, record_tool_call at 1, record_parsed at 2.
  rewrite Hv. by apply IH.
Qed.

(** The loop stops at the first call that does not parse. *)
Lemma record_loop_failure (before after : list ToolCall) (bad : ToolCall)
    (e : exn) :
  forall tool_output : gmap string pyval,
    Forall (parses json_loads) before ->
    json_loads (arguments (function bad)) = Raise e ->
    fst (for_each (before ++ bad :: after)%list (record_tool_call json_loads)
           tool_output) = Raise e.
Proof.
  induction before as [|tc before IH]; intros d Hall Hbad.
  - cbn [app for_each]. unfold bind, record_tool_call at 1. by rewrite Hbad.
  - apply Forall_cons in Hall as [[v Hv] Hall].
    cbn [app for_each]. unfold bind, record_tool_call at 1. rewrite Hv.
    by apply IH.
Qed.

Lemma record_parsed_keys (calls : list ToolCall) :
  forall (tool_output : gmap string pyval) (k : string),
    k <> "function_name" -> k <> "arguments" ->
    foldl (record_parsed json_loads) tool_output calls !! k = tool_output !! k.
Proof.
  induction calls as [|tc calls IH]; intros d k Hf Ha; [done|].
  cbn [foldl]. rewrite IH by done. unfold record_parsed.
  destruct (json_loads _); [|done].
  by rewrite !lookup_insert_ne.
Qed.

(** X18: when every tool call's arguments parse, [get_tool_output]
    returns only the last call: its name and its parsed arguments,
    whatever the calls before it were; it prints that dictionary once. *)
Theorem get_tool_output_keeps_last_call (completion : Completion)
    (earlier : list ToolCall) (last : ToolCall) (v : pyval)
    (out : list string) :
  tool_calls (message (first_choice completion)) = Some (earlier ++ [last])%list ->
  Forall (parses json_loads) earlier ->
  json_loads (arguments (function last)) = Return v ->
  let tool_output : gmap string pyval :=
    <["arguments" := v]>
      (<["function_name" := VStr (name (function last))]> ∅) in
  get_tool_output json_loads str_dict completion out
  = (Return tool_output, (out ++ [str_dict tool_output])%list).
Proof.
  intros Hcalls Hall Hlast. cbv zeta. unfold get_tool_output. rewrite Hcalls.
  rewrite record_loop_parsed.
  2:{ apply Forall_app. split; [done|].
      constructor; [by exists v | constructor]. }
  rewrite foldl_app. cbn [foldl].
  assert (Heq :
    record_parsed json_loads (foldl (record_parsed json_loads) ∅ earlier) last
    = <["arguments" := v]>
        (<["function_name" := VStr (name (function last))]>
           (∅ : gmap string pyval))).
  { unfold record_parsed at 1. rewrite Hlast. apply map_eq. intros k.
    destruct (decide (k = "arguments")) as [->|Ha];
      [by rewrite !lookup_insert_eq|].
    rewrite !(lookup_insert_ne _ "arguments") by done.
    destruct (decide (k = "function_name")) as [->|Hf];
      [by rewrite !lookup_insert_eq|].
    rewrite !(lookup_insert_ne _ "function_name") by done.
    by apply record_parsed_keys. }
  rewrite Heq. reflexivity.
Qed.

(** X19: if the arguments of any tool call fail to parse, and those of
    the calls before it parse, [get_tool_output] raises the parser's
    error and prints nothing, even when a later call, the one it would
    have returned, is well formed. *)
Theorem get_tool_output_parse_failure (completion : Completion)
    (before after : list ToolCall) (bad : ToolCall) (e : exn)
    (out : list string) :
  tool_calls (message (first_choice completion))
    = Some (before ++ bad :: after)%list ->
  Forall (parses json_loads) before ->
  json_loads (arguments (function bad)) = Raise e ->
  get_tool_output json_loads str_dict completion out = (Raise e, out).
Proof.
  intros Hcalls Hall Hbad. unfold get_tool_output. rewrite Hcalls.
  pose proof (record_loop_failure before after bad e ∅ Hall Hbad) as Hloop.
  destruct (for_each _ _ _) as [[[]|e'] d]; cbn in Hloop; [discriminate|].
  by injection Hloop as ->.
Qed.

(** X20: [chat] prints the user's message and asks for a completion.  An
    exception from that request is swallowed: it is printed and [chat]
    returns [None].  A completion is printed and passed to
    [get_tool_output], whose exceptions are not caught: a completion
    without tool calls makes [chat] raise [TypeError], and one with no
    call in its list yields the empty dictionary. *)
Theorem chat_swallows_request_errors_only (self : Agent)
    (user_message : string) (out : list string) :
  let messages :=
    VList [VDict [("role", VStr "system"); ("content", VStr (instructions self))];
           VDict [("role", VStr "user"); ("content", VStr user_message)]] in
  let request := create messages (tools self) (tool_choice self) in
  (forall e, request = Raise e ->
     chat json_loads create str_completion str_dict self user_message out
     = (Return None,
        (out ++ [user_message; "Exception occurred: " +:+ exn_str e])%list)) /\
  (forall completion, request = Return completion ->
     let printed :=
       (out ++ [user_message; nl +:+ nl +:+ str_completion completion])%list in
     chat json_loads create str_completion str_dict self user_message out
     = (match fst (get_tool_output json_loads str_dict completion printed) with
        | Return tool_output => Return (Some tool_output)
        | Raise e => Raise e
        end,
        snd (get_tool_output json_loads str_dict completion printed)) /\
     (tool_calls (message (first_choice completion)) = None ->
      chat json_loads create str_completion str_dict self user_message out
      = (Raise (TypeError "'NoneType' object is not iterable"), printed)) /\
     (tool_calls (message (first_choice completion)) = Some [] ->
      chat json_loads create str_completion str_dict self user_message out
      = (Return (Some ∅), (printed ++ [str_dict ∅])%list))).
Proof.
  cbv zeta. split.
  - intros e He. unfold chat, bind at 1, try_except, bind, print, lift, ret.
    rewrite He. cbn. by rewrite <- app_assoc.
  - intros completion Hc.
    assert (Hchat :
      chat json_loads create str_completion str_dict self user_message out
      = (match fst (get_tool_output json_loads str_dict completion
                      (out ++ [user_message;
                               nl +:+ nl +:+ str_completion completion])%list) with
         | Return tool_output => Return (Some tool_output)
         | Raise e => Raise e
         end,
         snd (get_tool_output json_loads str_dict completion
                (out ++ [user_message;
                         nl +:+ nl +:+ str_completion completion])%list))).
    { unfold chat, bind at 1, try_except, bind, print, lift, ret.
      rewrite Hc. cbn. rewrite <- app_assoc. cbn.
      by destruct (get_tool_output _ _ _ _) as [[d|e] out']. }
    split; [exact Hchat|]. split; intros Hcalls; rewrite Hchat.
    + unfold get_tool_output. by rewrite Hcalls.
    + unfold get_tool_output. by rewrite Hcalls.
Qed.

End AgentFacts.

(** ** The dispatcher: what comes back from a handler *)

Section DispatcherResults.
Import SwarmOperations Core.

Context {SwarmConfig World : Type}.
Variables spawn blocking terminate failure : @handler SwarmConfig World.

(** X21: an exception raised by the handler comes out of the dispatcher
    as it is, neither wrapped nor retried: the handler was invoked once
    and the world is as it left it. *)
Theorem execute_propagates_handler_error (swarm_config : SwarmConfig)
    (op : SwarmOperation) (st : DispatchState) (h : handler)
    (e : exn) (w' : World) :
  operation_mapping spawn blocking terminate failure !! operation_type op
    = Some h ->
  h swarm_config op (world st) = (Raise e, w') ->
  execute_swarmstar_operation spawn blocking terminate failure
      swarm_config op st =
    (Raise e,
     {| world := w'; invoked := invoked st ++ [(operation_type op, op)] |}).
Proof.
  intros Hh Hrun.
  unfold execute_swarmstar_operation, bind, call_handler.
  by rewrite Hh, Hrun.
Qed.

(** X22: whatever the operation and the handlers, what the dispatcher
    returns is [None] or a list, never a bare operation or a tuple; and
    it invokes at most one handler, the one of the operation's type. *)
Theorem execute_returns_None_or_list (swarm_config : SwarmConfig)
    (op : SwarmOperation) (st st' : DispatchState) (result : pyobj) :
  execute_swarmstar_operation spawn blocking terminate failure
      swarm_config op st = (Return result, st') ->
  (result = PyNone \/ exists items, result = PyList items) /\
  invoked st' = (invoked st ++ [(operation_type op, op)])%list /\
  operation_type op ∈ ["spawn"; "blocking"; "terminate"; "node_failure"].
Proof.
  unfold execute_swarmstar_operation, bind, call_handler, ret, raise.
  destruct (operation_mapping spawn blocking terminate failure
              !! operation_type op) as [h|] eqn:Hh; [|discriminate].
  destruct (h swarm_config op (world st)) as [[output|e] w']; [|discriminate].
  intros [= <- <-]. split; [|split].
  - destruct output; cbn; eauto.
  - reflexivity.
  - destruct (decide (operation_type op
                      ∈ ["spawn"; "blocking"; "terminate"; "node_failure"]))
      as [Hin|Hout]; [done|].
    apply (operation_mapping_keys spawn blocking terminate failure) in Hout.
    congruence.
Qed.

End DispatcherResults.
